(** * The Kaito Yaps proxy handler

    A shallow embedding of the serverless handler
    [module.exports = async function handler(req, res)] and of the platform
    pieces it calls ([URLSearchParams], [fetch], the response object), with
    the properties its specification states.

    Modelling choices:
    - Strings are byte strings: a JavaScript string stands for its UTF-8
      encoding, which is what [URLSearchParams] serialises.  Query values
      reach the handler decoded from the request URL, so they are
      well-formed Unicode.
    - [req.query] maps keys to string values, as in the data model of the
      specification; a missing key reads as [undefined].
    - The handler runs in a state monad over the response object, the
      console and the network, with JavaScript's three ways of completing
      a statement (normal, [return], [throw]).
    - The upstream is a function from the outbound request to what
      [fetch] settles to; [response.json()] settles to the parsed body or
      to a parse error.  The methods of [res] do not throw.
    - A value parsed from JSON is written as the document
      [JSON.stringify] prints for it; what parsing and printing do to a
      document (numbers through doubles, members into properties) is
      [JSON.round_trip]. *)

From Stdlib Require Import Ascii String ZArith List Bool Lia SpecFloat.
From stdpp Require Import base option strings gmap pretty.

Local Open Scope string_scope.
Local Open Scope Z_scope.

(** ** application/x-www-form-urlencoded (WHATWG URL Standard, section 5)

    [URLSearchParams] is a platform class; its [toString] is the
    urlencoded serialiser and the matching reader is the urlencoded
    parser.  Both are written here over bytes, as in the standard. *)

Module UrlEncoded.

Definition byte_in (lo hi : N) (c : ascii) : bool :=
  ((lo <=? N_of_ascii c) && (N_of_ascii c <=? hi))%N.

Definition is_ascii_digit (c : ascii) : bool := byte_in 48 57 c.
Definition is_ascii_upper_alpha (c : ascii) : bool := byte_in 65 90 c.
Definition is_ascii_lower_alpha (c : ascii) : bool := byte_in 97 122 c.

Definition is_ascii_alphanumeric (c : ascii) : bool :=
  is_ascii_digit c || is_ascii_upper_alpha c || is_ascii_lower_alpha c.

(** The complement of the application/x-www-form-urlencoded
    percent-encode set: ASCII alphanumerics and [*], [-], [.], [_]. *)
Definition is_urlencoded_safe (c : ascii) : bool :=
  is_ascii_alphanumeric c
  || Ascii.eqb c "*" || Ascii.eqb c "-" || Ascii.eqb c "." || Ascii.eqb c "_".

(** One upper-case hexadecimal digit for a value below 16. *)
Definition hex_digit (n : N) : ascii :=
  if (n <? 10)%N then ascii_of_N (48 + n) else ascii_of_N (55 + n).

(** Percent-encode a byte: [%] followed by two upper-case hex digits. *)
Definition percent_encode_byte (c : ascii) (rest : string) : string :=
  String "%"
    (String (hex_digit (N_of_ascii c / 16))
       (String (hex_digit (N_of_ascii c mod 16)) rest)).

(** Percent-encode after encoding, with the urlencoded set and
    spaceAsPlus set: a space becomes [+]. *)
Fixpoint percent_encode (s : string) : string :=
  match s with
  | EmptyString => EmptyString
  | String c r =>
      if Ascii.eqb c " " then String "+" (percent_encode r)
      else if is_urlencoded_safe c then String c (percent_encode r)
      else percent_encode_byte c (percent_encode r)
  end.

(** The urlencoded serialiser: for each tuple, an [&] when the output is
    not empty, then [name=value]. *)
Definition serialize_step (output : string) (t : string * string) : string :=
  (if String.eqb output "" then output else output ++ "&")
    ++ percent_encode (fst t) ++ "=" ++ percent_encode (snd t).

Definition serialize (tuples : list (string * string)) : string :=
  fold_left serialize_step tuples "".

(** Value of a hexadecimal digit, either case. *)
Definition hex_value (c : ascii) : option N :=
  if is_ascii_digit c then Some (N_of_ascii c - 48)%N
  else if byte_in 65 70 c then Some (N_of_ascii c - 55)%N
  else if byte_in 97 102 c then Some (N_of_ascii c - 87)%N
  else None.

(** Percent-decode: a [%] followed by two hex digits is one byte, any
    other byte stands for itself. *)
Fixpoint percent_decode (s : string) : string :=
  match s with
  | EmptyString => EmptyString
  | String c r =>
      if Ascii.eqb c "%" then
        match r with
        | String h (String l r') =>
            match hex_value h, hex_value l with
            | Some a, Some b =>
                String (ascii_of_N (16 * a + b)) (percent_decode r')
            | _, _ => String c (percent_decode r)
            end
        | _ => String c (percent_decode r)
        end
      else String c (percent_decode r)
  end.

Fixpoint plus_to_space (s : string) : string :=
  match s with
  | EmptyString => EmptyString
  | String c r =>
      String (if Ascii.eqb c "+" then " "%char else c) (plus_to_space r)
  end.

(** Strictly split on a byte: the pieces between the separators, empty
    ones included. *)
Fixpoint split_on (sep : ascii) (s : string) : list string :=
  match s with
  | EmptyString => [EmptyString]
  | String c r =>
      if Ascii.eqb c sep then EmptyString :: split_on sep r
      else match split_on sep r with
           | piece :: pieces => String c piece :: pieces
           | [] => [String c EmptyString]
           end
  end.

(** Cut a sequence at its first [=]; without one the value is empty. *)
Fixpoint cut_at_equals (s : string) : string * string :=
  match s with
  | EmptyString => (EmptyString, EmptyString)
  | String c r =>
      if Ascii.eqb c "=" then (EmptyString, r)
      else let '(n, v) := cut_at_equals r in (String c n, v)
  end.

Definition decode_component (s : string) : string :=
  percent_decode (plus_to_space s).

Definition parse_sequence (bytes : string) : list (string * string) :=
  if String.eqb bytes "" then []
  else let '(n, v) := cut_at_equals bytes in
       [(decode_component n, decode_component v)].

(** The urlencoded parser. *)
Definition parse (input : string) : list (string * string) :=
  flat_map parse_sequence (split_on "&" input).

End UrlEncoded.

(** ** JavaScript values the handler touches *)

(** A JSON document.  A number is kept as the decimal literal
    [coefficient * 10 ^ exponent] it is written as; the handler never
    inspects it.  A value that JavaScript holds after [JSON.parse] is
    written as the document [JSON.stringify] prints for it (see
    [JSON.round_trip] below). *)
#[warnings="-register-all"] Inductive JsonValue : Type :=
| JNull
| JBool (b : bool)
| JNumber (coefficient exponent : Z)
| JString (s : string)
| JArray (items : list JsonValue)
| JObject (members : list (string * JsonValue)).

(** A thrown value: an [Error] with its name and message. *)
Record JsError : Type := mkError { error_name : string; error_message : string }.

(** [req]: the method and the parsed query, a mapping from keys to
    string values, one per key as in the data model of the specification;
    a key that is absent reads as [undefined].  The array the platform
    passes for a key that is repeated in the URL is not modelled. *)
Record Request : Type := mkRequest {
  method : string;
  query : gmap string string
}.

(** Truthiness of a query value: [undefined] and [''] are falsy. *)
Definition truthy (v : option string) : bool :=
  match v with
  | None => false
  | Some s => negb (String.eqb s "")
  end.

(** The string a query value converts to when a platform method takes
    it as an argument. *)
Definition to_string (v : option string) : string :=
  match v with
  | None => "undefined"
  | Some s => s
  end.

(** ** The response object [res] *)

Inductive Payload : Type :=
| NoBody
| JsonBody (v : JsonValue).

(** What goes to the caller when [end] or [json] is called: the status
    and the headers set on [res] so far, and the payload.  The content
    headers the platform adds on its own when it writes a body are not
    part of it. *)
Record HttpResponse : Type := mkHttpResponse {
  sent_status : Z;
  sent_headers : gmap string string;
  sent_body : Payload
}.

Record ServerResponse : Type := mkServerResponse {
  headers : gmap string string;
  statusCode : Z;
  sent : list HttpResponse
}.

(** A fresh [res]: no header, status 200, nothing sent. *)
Definition fresh_res : ServerResponse :=
  {| headers := ∅; statusCode := 200; sent := [] |}.

(** ** The upstream, as [fetch] shows it *)

Record FetchRequest : Type := mkFetchRequest {
  url : string;
  init_method : string;
  init_headers : list (string * string)
}.

(** A [Response]: its status line and what [response.json()] settles to,
    the parsed body or the parse error. *)
Record FetchResponse : Type := mkFetchResponse {
  status : Z;
  statusText : string;
  json_result : JsError + JsonValue
}.

(** [response.ok]: the status is in the range 200 to 299. *)
Definition ok (r : FetchResponse) : bool :=
  (200 <=? status r) && (status r <=? 299).

(** [fetch] either fulfils with a response or rejects (transport failure). *)
Inductive FetchOutcome : Type :=
| Fulfilled (r : FetchResponse)
| Rejected (e : JsError).

(** ** The world of one invocation and the handler's monad *)

Inductive LogArg : Type :=
| LogString (s : string)
| LogError (e : JsError).

Record World : Type := mkWorld {
  res : ServerResponse;
  console : list (list LogArg);
  network : list FetchRequest
}.

(** How a statement completes: normally, by [return], or by [throw]. *)
Inductive Completion (A : Type) : Type :=
| Normal (a : A)
| Return
| Throw (e : JsError).
Arguments Normal {A} a.
Arguments Return {A}.
Arguments Throw {A} e.

Definition M (A : Type) : Type := World -> Completion A * World.

Definition ret {A} (a : A) : M A := fun w => (Normal a, w).

Definition bind {A B} (m : M A) (k : A -> M B) : M B :=
  fun w =>
    match m w with
    | (Normal a, w') => k a w'
    | (Return, w') => (Return, w')
    | (Throw e, w') => (Throw e, w')
    end.

Declare Scope js_scope.
Delimit Scope js_scope with js.
Notation "'let*' x ':=' m 'in' k" := (bind m (fun x => k))
  (at level 10, x name, m at level 100, k at level 200) : js_scope.
Notation "m ';;;' k" := (bind m (fun _ => k))
  (at level 100, k at level 200, right associativity) : js_scope.

(** [return;] *)
Definition return_ {A} : M A := fun w => (Return, w).

(** [if (c) stmt] *)
Definition when (c : bool) (stmt : M unit) : M unit :=
  if c then stmt else ret tt.

(** [try { block } catch (error) { handler }]: only a throw is caught. *)
Definition try_catch (block : M unit) (handler : JsError -> M unit) : M unit :=
  fun w =>
    match block w with
    | (Throw e, w') => handler e w'
    | other => other
    end.

(** The body of an [async function]: a [return] fulfils the promise, a
    throw that escapes rejects it. *)
Definition async_function (body : M unit) : M unit :=
  fun w =>
    match body w with
    | (Return, w') => (Normal tt, w')
    | other => other
    end.

Definition update_res (f : ServerResponse -> ServerResponse) : M unit :=
  fun w => (Normal tt,
            {| res := f (res w); console := console w; network := network w |}).

(** [res.setHeader(name, value)] *)
Definition setHeader (name value : string) : M unit :=
  update_res (fun r =>
    {| headers := <[name := value]> (headers r);
       statusCode := statusCode r; sent := sent r |}).

(** [res.status(code)] *)
Definition set_status (code : Z) : M unit :=
  update_res (fun r =>
    {| headers := headers r; statusCode := code; sent := sent r |}).

Definition send (p : Payload) : M unit :=
  update_res (fun r =>
    {| headers := headers r; statusCode := statusCode r;
       sent := sent r ++
               [{| sent_status := statusCode r;
                   sent_headers := headers r;
                   sent_body := p |}] |}).

(** [.end()] *)
Definition end_ : M unit := send NoBody.

(** [.json(value)]: the body is the document [JSON.stringify] prints
    for the value. *)
Definition json (v : JsonValue) : M unit := send (JsonBody v).

(** [console.error(...args)] *)
Definition console_error (args : list LogArg) : M unit :=
  fun w => (Normal tt,
            {| res := res w; console := console w ++ [args];
               network := network w |}).

(** The object literal [{ error: message }]. *)
Definition error_body (message : string) : JsonValue :=
  JObject [("error", JString message)].

(** ** URLSearchParams *)

Module URLSearchParams.
Definition t : Type := list (string * string).
Definition new : t := [].
Definition append (name value : string) (params : t) : t :=
  (params ++ [(name, value)])%list.
Definition toString (params : t) : string := UrlEncoded.serialize params.
End URLSearchParams.

(** ** The handler *)

Section Handler.

(** The global [fetch], as the upstream answers it. *)
Variable upstream : FetchRequest -> FetchOutcome.

(** [await fetch(url, init)]: the call goes out, then fulfils or throws. *)
Definition fetch (request : FetchRequest) : M FetchResponse :=
  fun w =>
    let w' := {| res := res w; console := console w;
                 network := network w ++ [request] |} in
    match upstream request with
    | Fulfilled r => (Normal r, w')
    | Rejected e => (Throw e, w')
    end.

(** [await response.json()] *)
Definition response_json (response : FetchResponse) : M JsonValue :=
  fun w =>
    match json_result response with
    | inr data => (Normal data, w)
    | inl e => (Throw e, w)
    end.

(** [if (value) params.append(name, value)] *)
Definition append_if (value : option string) (name : string)
    (params : URLSearchParams.t) : URLSearchParams.t :=
  if truthy value then URLSearchParams.append name (to_string value) params
  else params.

(** The block of the [try] statement. *)
Definition try_block (req : Request) : M unit :=
  (let username := query req !! "username" in
   let user_id := query req !! "user_id" in
   when (negb (truthy username) && negb (truthy user_id))
     (set_status 400 ;;;
      json (error_body "username or user_id required") ;;;
      return_) ;;;
   let queryParams := URLSearchParams.new in
   let queryParams := append_if username "username" queryParams in
   let queryParams := append_if user_id "user_id" queryParams in
   let kaitoUrl :=
     "https://api.kaito.ai/api/v1/yaps?"
       ++ URLSearchParams.toString queryParams in
   let* response :=
     fetch {| url := kaitoUrl;
              init_method := "GET";
              init_headers :=
                [("Content-Type", "application/json");
                 ("User-Agent", "kaito-yaps-proxy/1.0.0")] |} in
   when (negb (ok response))
     (console_error
        [LogString ("Kaito API error: " ++ pretty (status response)
                      ++ " " ++ statusText response)] ;;;
      set_status 502 ;;; json (error_body "Upstream error") ;;;
      return_) ;;;
   let* data := response_json response in
   set_status 200 ;;; json data)%js.

(** The block of its [catch (error)] clause. *)
Definition catch_block (error : JsError) : M unit :=
  (console_error [LogString "Proxy error:"; LogError error] ;;;
   set_status 500 ;;; json (error_body "Internal server error"))%js.

Definition handler (req : Request) : M unit :=
  async_function (
    setHeader "Access-Control-Allow-Origin" "*" ;;;
    setHeader "Access-Control-Allow-Methods" "GET" ;;;
    setHeader "Access-Control-Allow-Headers" "Content-Type" ;;;
    when (String.eqb (method req) "OPTIONS")
      (set_status 200 ;;; end_ ;;; return_) ;;;
    when (negb (String.eqb (method req) "GET"))
      (set_status 405 ;;; json (error_body "Method not allowed") ;;;
       return_) ;;;
    try_catch (try_block req) catch_block
  )%js.

End Handler.

(** ** What one invocation does, seen from outside *)

(** The part of a history that was added after its first [n] entries. *)
Definition since {A} (n : nat) (history : list A) : list A := drop n history.

(** Responses sent to the caller while [m] runs from [w]. *)
Definition sent_during (m : M unit) (w : World) : list HttpResponse :=
  since (length (sent (res w))) (sent (res (snd (m w)))).

(** Their status and body. *)
Definition responses (m : M unit) (w : World) : list (Z * Payload) :=
  map (fun r => (sent_status r, sent_body r)) (sent_during m w).

(** Outbound calls made while [m] runs from [w]. *)
Definition calls (m : M unit) (w : World) : list FetchRequest :=
  since (length (network w)) (network (snd (m w))).

(** Lines logged while [m] runs from [w]. *)
Definition logged (m : M unit) (w : World) : list (list LogArg) :=
  since (length (console w)) (console (snd (m w))).

(** ** The specification's reading of a request *)

Definition endpoint : string := "https://api.kaito.ai/api/v1/yaps".

(** A recognised parameter counts as supplied when it is present with a
    non-empty value. *)
Definition supplied_value (req : Request) (key : string) : option string :=
  match query req !! key with
  | Some v => if decide (v = "") then None else Some v
  | None => None
  end.

(** The supplied parameters, as key-value pairs. *)
Definition supplied (req : Request) : list (string * string) :=
  omap (fun key => pair key <$> supplied_value req key)
       ["username"; "user_id"].

(** A parameter is absent when it is undefined or the empty string. *)
Definition absent (req : Request) (key : string) : Prop :=
  query req !! key = None \/ query req !! key = Some "".

(** At least one of [username], [user_id] is supplied. *)
Definition some_supplied (req : Request) : Prop :=
  ~ (absent req "username" /\ absent req "user_id").

(** The outbound call the specification describes (steps 6 and 7). *)
Definition upstream_call (req : Request) : FetchRequest :=
  {| url := endpoint ++ "?" ++ UrlEncoded.serialize (supplied req);
     init_method := "GET";
     init_headers := [("Content-Type", "application/json");
                      ("User-Agent", "kaito-yaps-proxy/1.0.0")] |}.

(** The three CORS headers laid over a header map. *)
Definition with_cors (h : gmap string string) : gmap string string :=
  <["Access-Control-Allow-Headers" := "Content-Type"]>
    (<["Access-Control-Allow-Methods" := "GET"]>
       (<["Access-Control-Allow-Origin" := "*"]> h)).

(** One row of the response table of the inbound interface: status,
    body, what is logged and which calls go out. *)
Record Row : Type := mkRow {
  row_status : Z;
  row_body : Payload;
  row_log : list (list LogArg);
  row_calls : list FetchRequest
}.

Definition error_row (code : Z) (message : string)
    (log : list (list LogArg)) (out : list FetchRequest) : Row :=
  mkRow code (JsonBody (error_body message)) log out.

Definition internal_error_row (e : JsError) (out : list FetchRequest) : Row :=
  error_row 500 "Internal server error"
    [[LogString "Proxy error:"; LogError e]] out.

(** The table, read top to bottom. *)
Definition table (upstream : FetchRequest -> FetchOutcome) (req : Request) : Row :=
  if decide (method req = "OPTIONS") then mkRow 200 NoBody [] []
  else if decide (method req = "GET") then
    match supplied req with
    | [] => error_row 400 "username or user_id required" [] []
    | _ :: _ =>
        let out := [upstream_call req] in
        match upstream (upstream_call req) with
        | Rejected e => internal_error_row e out
        | Fulfilled r =>
            if decide (200 <= status r <= 299) then
              match json_result r with
              | inr data => mkRow 200 (JsonBody data) [] out
              | inl e => internal_error_row e out
              end
            else
              error_row 502 "Upstream error"
                [[LogString ("Kaito API error: " ++ pretty (status r)
                               ++ " " ++ statusText r)]] out
        end
    end
  else error_row 405 "Method not allowed" [] [].

(** The world after a row has been played from [w]. *)
Definition after_row (row : Row) (w : World) : World :=
  let h := with_cors (headers (res w)) in
  {| res := {| headers := h;
               statusCode := row_status row;
               sent := sent (res w) ++
                       [{| sent_status := row_status row;
                           sent_headers := h;
                           sent_body := row_body row |}] |};
     console := console w ++ row_log row;
     network := network w ++ row_calls row |}.

(** ** Reading a URL back *)

Fixpoint occurs (c : ascii) (s : string) : bool :=
  match s with
  | EmptyString => false
  | String d r => Ascii.eqb d c || occurs c r
  end.

(** The text before the first [sep] (all of it when there is none). *)
Fixpoint before (sep : ascii) (s : string) : string :=
  match s with
  | EmptyString => EmptyString
  | String c r =>
      if Ascii.eqb c sep then EmptyString else String c (before sep r)
  end.

(** The text after the first [sep] (empty when there is none). *)
Fixpoint after (sep : ascii) (s : string) : string :=
  match s with
  | EmptyString => EmptyString
  | String c r => if Ascii.eqb c sep then r else after sep r
  end.

(** The query of a URL: what follows the first [?], the fragment that
    starts at the first [#] left out. *)
Definition url_query (u : string) : string := after "?" (before "#" u).

Fixpoint all_bytes (p : ascii -> bool) (s : string) : bool :=
  match s with
  | EmptyString => true
  | String c r => p c && all_bytes p r
  end.

(** Bytes the serialiser can emit for a name or a value. *)
Definition is_encoded_byte (c : ascii) : bool :=
  UrlEncoded.is_urlencoded_safe c || Ascii.eqb c "+" || Ascii.eqb c "%".

(** Bytes of a serialised query: encoded bytes, [&] and [=]. *)
Definition is_query_byte (c : ascii) : bool :=
  is_encoded_byte c || Ascii.eqb c "&" || Ascii.eqb c "=".

(** The text of one tuple, [name=value]. *)
Definition tuple_text (t : string * string) : string :=
  UrlEncoded.percent_encode (fst t) ++ "="
    ++ UrlEncoded.percent_encode (snd t).

(** The tuples after the first one, each led by [&]. *)
Fixpoint more_tuples (l : list (string * string)) : string :=
  match l with
  | [] => ""
  | t :: l' => "&" ++ tuple_text t ++ more_tuples l'
  end.

(** A world in which nothing has happened yet. *)
Definition fresh_world : World :=
  {| res := fresh_res; console := []; network := [] |}.

(** ** Sample requests and upstreams *)

Module Samples.

Definition vitalik : Request :=
  {| method := "GET"; query := {[ "username" := "VitalikButerin" ]} |}.

(** [{"user_id":"295218901","username":"VitalikButerin","yaps_all":7530.93}] *)
Definition vitalik_json : JsonValue :=
  JObject [("user_id", JString "295218901");
           ("username", JString "VitalikButerin");
           ("yaps_all", JNumber 753093 (-2))].

Definition healthy (_ : FetchRequest) : FetchOutcome :=
  Fulfilled {| status := 200; statusText := "OK";
               json_result := inr vitalik_json |}.

(** A 404 whose body carries text of its own. *)
Definition not_found (_ : FetchRequest) : FetchOutcome :=
  Fulfilled {| status := 404; statusText := "Not Found";
               json_result :=
                 inr (JObject [("detail", JString "no such user")]) |}.

Definition unreachable (_ : FetchRequest) : FetchOutcome :=
  Rejected {| error_name := "TypeError"; error_message := "fetch failed" |}.

(** A 200 whose body is not JSON. *)
Definition garbled (_ : FetchRequest) : FetchOutcome :=
  Fulfilled {| status := 200; statusText := "OK";
               json_result :=
                 inl {| error_name := "SyntaxError";
                        error_message := "Unexpected token <" |} |}.

(** The same request with a key the handler does not read. *)
Definition vitalik_paged : Request :=
  {| method := "GET";
     query := {[ "username" := "VitalikButerin"; "page" := "2" ]} |}.

Definition by_id : Request :=
  {| method := "GET"; query := {[ "user_id" := "295218901" ]} |}.

Definition both : Request :=
  {| method := "GET";
     query := {[ "username" := "a b"; "user_id" := "7"; "page" := "2" ]} |}.

Definition no_parameters : Request :=
  {| method := "GET"; query := {[ "username" := ""; "page" := "2" ]} |}.

Definition preflight : Request :=
  {| method := "OPTIONS"; query := {[ "username" := "VitalikButerin" ]} |}.

Definition post : Request :=
  {| method := "POST"; query := {[ "username" := "VitalikButerin" ]} |}.

(** Both parameters, with separators and a space inside the values. *)
Definition both_unsafe : Request :=
  {| method := "GET";
     query := {[ "username" := "x&user_id=1#top=2"; "user_id" := "7 8";
                 "page" := "2" ]} |}.

(** A value that tries to smuggle a second parameter and a fragment. *)
Definition injecting : Request :=
  {| method := "GET";
     query := {[ "username" := "x&user_id=1#top=2" ]} |}.

(** A world with a past: a response already sent on [res], a line in
    the log, a call on the network. *)
Definition used_world : World :=
  {| res := {| headers := {[ "X-Old" := "1" ]};
               statusCode := 418;
               sent := [{| sent_status := 418; sent_headers := ∅;
                           sent_body := NoBody |}] |};
     console := [[LogString "earlier"]];
     network := [{| url := "https://example.org/"; init_method := "GET";
                    init_headers := [] |}] |}.

End Samples.

(** Case analysis on the eight bits of a byte. *)
Ltac each_byte c := destruct c as [[] [] [] [] [] [] [] []].

(** ** The client of the proxy (examples/usage-example.js) *)

(** What [m] completes with when run from [w]. *)
Definition outcome {A} (m : M A) (w : World) : Completion A := fst (m w).

(** Outbound calls made, and lines logged, while [m] runs from [w]. *)
Definition calls_of {A} (m : M A) (w : World) : list FetchRequest :=
  since (length (network w)) (network (snd (m w))).

Definition logged_of {A} (m : M A) (w : World) : list (list LogArg) :=
  since (length (console w)) (console (snd (m w))).

(** [throw value] *)
Definition throw {A} (e : JsError) : M A := fun w => (Throw e, w).

(** [try { block } catch (error) { handler }] in a function that returns
    a value: a [return expr] that ends a block is the value the block
    completes with. *)
Definition try_catch_value {A} (block : M A) (handler : JsError -> M A) : M A :=
  fun w =>
    match block w with
    | (Throw e, w') => handler e w'
    | other => other
    end.

(** [new Error(message)] *)
Definition new_Error (message : string) : JsError :=
  {| error_name := "Error"; error_message := message |}.

(** How a promise settles, as [Promise.allSettled] reports it. *)
Inductive Settled : Type :=
| SettledFulfilled (value : JsonValue)
| SettledRejected (reason : JsError).

(** One entry of a batch result; [null] is [JNull] for the data and
    [None] for the error, and a missing array element is [None]. *)
Record BatchEntry : Type := mkBatchEntry {
  entry_username : option string;
  entry_data : JsonValue;
  entry_error : option JsError
}.

Module Client.

Definition default_proxyUrl : string :=
  "https://your-deployment.vercel.app/api/kaito-yaps-proxy".

(** A parameter with a default value: the default stands in for
    [undefined]. *)
Definition or_default (proxyUrl : option string) : string :=
  match proxyUrl with
  | Some u => u
  | None => default_proxyUrl
  end.

(** [fetch(url)] without an init: a GET with no header of the caller's. *)
Definition get_request (u : string) : FetchRequest :=
  {| url := u; init_method := "GET"; init_headers := [] |}.

Section WithProxy.

(** The global [fetch] of the client: how the deployed proxy answers. *)
Variable proxy : FetchRequest -> FetchOutcome.

Definition getYapsData (username : string) (proxyUrl : option string)
    : M JsonValue :=
  let proxyUrl := or_default proxyUrl in
  try_catch_value (
    let* response :=
      fetch proxy (get_request (proxyUrl ++ "?username=" ++ username)) in
    when (negb (ok response))
      (throw (new_Error ("HTTP " ++ pretty (status response)))) ;;;
    response_json response
  )%js (fun error =>
    console_error [LogString "Error fetching yaps data:"; LogError error] ;;;
    ret JNull)%js.

(** Waiting for one promise to settle.  A promise of [getYapsData]
    never completes by a bare [return]; such a completion would fulfil
    with no value and is read as [null]. *)
Definition settle (promise : M JsonValue) : M Settled :=
  fun w =>
    match promise w with
    | (Normal value, w') => (Normal (SettledFulfilled value), w')
    | (Return, w') => (Normal (SettledFulfilled JNull), w')
    | (Throw reason, w') => (Normal (SettledRejected reason), w')
    end.

(** [Promise.allSettled(promises)].  The calls go out in the order of
    the list; the requests are then taken to settle in that order too. *)
Fixpoint allSettled (promises : list (M JsonValue)) : M (list Settled) :=
  match promises with
  | [] => ret []
  | promise :: rest =>
      (let* result := settle promise in
       let* results := allSettled rest in
       ret (result :: results))%js
  end.

Definition getBatchYapsData (usernames : list string)
    (proxyUrl : option string) : M (list BatchEntry) :=
  let proxyUrl := or_default proxyUrl in
  let promises :=
    map (fun username => getYapsData username (Some proxyUrl)) usernames in
  (let* results := allSettled promises in
   ret (imap (fun index result =>
          {| entry_username := usernames !! index;
             entry_data := match result with
                           | SettledFulfilled value => value
                           | SettledRejected _ => JNull
                           end;
             entry_error := match result with
                            | SettledFulfilled _ => None
                            | SettledRejected reason => Some reason
                            end |}) results))%js.

End WithProxy.

End Client.

Module ClientSamples.

(** A proxy that knows one user and answers 400 to everything else. *)
Definition one_user (request : FetchRequest) : FetchOutcome :=
  if String.eqb (url request)
       (Client.default_proxyUrl ++ "?username=VitalikButerin")
  then Fulfilled {| status := 200; statusText := "OK";
                    json_result := inr Samples.vitalik_json |}
  else Fulfilled {| status := 400; statusText := "Bad Request";
                    json_result :=
                      inr (error_body "username or user_id required") |}.

End ClientSamples.

(** What the [try] block of [getYapsData] comes to: the parsed data, or
    the value it throws. *)
Definition fetched (proxy : FetchRequest -> FetchOutcome)
    (username : string) (proxyUrl : option string) : JsError + JsonValue :=
  match proxy (Client.get_request
                 (Client.or_default proxyUrl ++ "?username=" ++ username)) with
  | Rejected e => inl e
  | Fulfilled r =>
      if decide (200 <= status r <= 299) then json_result r
      else inl (new_Error ("HTTP " ++ pretty (status r)))
  end.

(** ** JavaScript numbers: IEEE 754 binary64 *)

Module Number.

Definition prec : Z := 53.
Definition emax : Z := 1024.

Definition zero : spec_float := S754_zero false.
Definition infinity : spec_float := S754_infinity false.

(** A whole number, rounded to the nearest double. *)
Definition of_Z (n : Z) : spec_float := binary_normalize prec emax n 0 false.

(** The literals [0.1] and [0.5]. *)
Definition tenth : spec_float := S754_finite false 7205759403792794 (-56).
Definition half : spec_float := S754_finite false 4503599627370496 (-53).

Definition mul : spec_float -> spec_float -> spec_float := SFmul prec emax.
Definition add : spec_float -> spec_float -> spec_float := SFadd prec emax.
Definition div : spec_float -> spec_float -> spec_float := SFdiv prec emax.

Definition is_nan (f : spec_float) : bool :=
  match f with
  | S754_nan => true
  | _ => false
  end.

Definition is_zero (f : spec_float) : bool :=
  match f with
  | S754_zero _ => true
  | _ => false
  end.

Definition is_negative_zero (f : spec_float) : bool :=
  match f with
  | S754_zero true => true
  | _ => false
  end.

Definition is_positive_zero (f : spec_float) : bool :=
  match f with
  | S754_zero false => true
  | _ => false
  end.

(** [Math.min(...numbers)]: NaN if any argument is NaN, otherwise the
    lowest, with -0 below +0; +Infinity without arguments. *)
Fixpoint min_from (lowest : spec_float) (numbers : list spec_float)
    : spec_float :=
  match numbers with
  | [] => lowest
  | number :: rest =>
      if is_nan number then S754_nan
      else if is_negative_zero number && is_positive_zero lowest
      then min_from number rest
      else if SFltb number lowest then min_from number rest
      else min_from lowest rest
  end.

Definition math_min (numbers : list spec_float) : spec_float :=
  min_from infinity numbers.

End Number.

(** ** The reputation score (examples/usage-example.js) *)

(** The member of an object a key reads; a later member of the same name
    wins, and a value that is not an object has no member. *)
Definition get_member (v : JsonValue) (key : string) : option JsonValue :=
  match v with
  | JObject members =>
      fold_left (fun found member =>
                   if String.eqb (fst member) key then Some (snd member)
                   else found) members None
  | _ => None
  end.

Section Scoring.

(** [ToNumber] on the values of a parsed JSON document. *)
Variable to_number : JsonValue -> spec_float.

(** Truthiness of such a value: [null], [false], [0], [NaN] and [''] are
    falsy. *)
Definition js_truthy (v : JsonValue) : bool :=
  match v with
  | JNull => false
  | JBool b => b
  | JNumber _ _ =>
      negb (Number.is_zero (to_number v) || Number.is_nan (to_number v))
  | JString s => negb (String.eqb s "")
  | JArray _ | JObject _ => true
  end.

(** A destructured member with the default [0], as a number: the default
    stands in when the member is undefined. *)
Definition member_or_zero (v : JsonValue) (key : string) : spec_float :=
  match get_member v key with
  | Some x => to_number x
  | None => Number.zero
  end.

Definition calculateReputationScore (yapsData : JsonValue) : spec_float :=
  if negb (js_truthy yapsData) then Number.zero
  else
    let yaps_all := member_or_zero yapsData "yaps_all" in
    let yaps_l7d := member_or_zero yapsData "yaps_l7d" in
    let totalScore := Number.mul yaps_all Number.tenth in
    let recentActivityBonus := Number.mul yaps_l7d Number.half in
    let consistencyBonus :=
      if SFltb Number.zero yaps_l7d then Number.of_Z 10 else Number.zero in
    Number.math_min
      [Number.of_Z 100;
       Number.add (Number.add totalScore recentActivityBonus)
                  consistencyBonus].

End Scoring.

Module ScoreSamples.

(** [ToNumber] for the samples: [null], booleans, whole numbers and
    short decimals as JavaScript converts them; strings, arrays and
    objects are all taken to NaN here. *)
Definition to_number (v : JsonValue) : spec_float :=
  match v with
  | JNull => Number.zero
  | JBool b => if b then Number.of_Z 1 else Number.zero
  | JNumber c e =>
      if 0 <=? e then Number.of_Z (c * 10 ^ e)
      else Number.div (Number.of_Z c) (Number.of_Z (10 ^ (- e)))
  | _ => S754_nan
  end.

(** [{"yaps_all":7530.93,"yaps_l7d":793.08}] *)
Definition busy : JsonValue :=
  JObject [("yaps_all", JNumber 753093 (-2));
           ("yaps_l7d", JNumber 79308 (-2))].

(** [{"yaps_all":120,"yaps_l7d":0}] *)
Definition quiet : JsonValue :=
  JObject [("yaps_all", JNumber 120 0); ("yaps_l7d", JNumber 0 0)].

(** [{"username":"nobody"}] *)
Definition bare : JsonValue := JObject [("username", JString "nobody")].

End ScoreSamples.

(** ** JSON documents as JavaScript reads and prints them

    [response.json()] parses the text of a body into a JavaScript value
    and [res.json] prints a value with [JSON.stringify].  A value that
    came out of [JSON.parse] is written here as the document
    [JSON.stringify] prints for it, so the two together are one function
    on documents: numbers become doubles and are printed in the shortest
    digits that read back as the same double, and the members of an
    object become its properties. *)

Module JSON.

(** [ToNumber] of the number literal [c * 10 ^ e]: the nearest double,
    ties to even. *)
Definition to_double (c e : Z) : spec_float :=
  match c with
  | Z0 => S754_zero false
  | Zpos p =>
      if 0 <=? e then binary_normalize Number.prec Number.emax (c * 10 ^ e) 0 false
      else SFdiv Number.prec Number.emax (S754_finite false p 0)
             (S754_finite false (Z.to_pos (10 ^ (- e))) 0)
  | Zneg p =>
      if 0 <=? e then binary_normalize Number.prec Number.emax (c * 10 ^ e) 0 false
      else SFdiv Number.prec Number.emax (S754_finite true p 0)
             (S754_finite false (Z.to_pos (10 ^ (- e))) 0)
  end.

(** [num / den < 10 ^ d] *)
Definition below_power (num den d : Z) : bool :=
  if 0 <=? d then num <? den * 10 ^ d else num * 10 ^ (- d) <? den.

(** The [n] of [Number::toString]: [10 ^ (n - 1) <= num / den < 10 ^ n]. *)
Definition decimal_point (num den : Z) : Z :=
  let estimate := (Z.log2 num - Z.log2 den) * 30103 / 100000 in
  match List.find (below_power num den)
          (map (fun i => estimate + i) [-2; -1; 0; 1; 2; 3]) with
  | Some n => n
  | None => estimate + 4
  end.

(** [floor (num / den / 10 ^ E)] *)
Definition scaled_floor (num den E : Z) : Z :=
  if 0 <=? E then num / (den * 10 ^ E) else num * 10 ^ (- E) / den.

(** [num / den] against the middle of [s * 10 ^ E] and [(s + 1) * 10 ^ E]. *)
Definition against_middle (num den s E : Z) : comparison :=
  if 0 <=? E then 2 * num ?= (2 * s + 1) * 10 ^ E * den
  else 2 * num * 10 ^ (- E) ?= (2 * s + 1) * den.

(** The digits [s] with [k] places such that [s * 10 ^ (n - k)] reads as
    [x], the closest to [x] when two do. *)
Definition digits_of_length (x : spec_float) (num den n k : Z)
    : option (Z * Z) :=
  let E := n - k in
  let lower := scaled_floor num den E in
  let upper := lower + 1 in
  let lower_reads := (0 <? lower) && SFeqb (to_double lower E) x in
  let upper_reads := SFeqb (to_double upper E) x in
  match lower_reads, upper_reads with
  | true, true =>
      match against_middle num den lower E with
      | Lt => Some (lower, E)
      | Gt => Some (upper, E)
      | Eq => Some (if Z.even lower then lower else upper, E)
      end
  | true, false => Some (lower, E)
  | false, true => Some (upper, E)
  | false, false => None
  end.

Fixpoint first_some {A B} (f : A -> option B) (l : list A) : option B :=
  match l with
  | [] => None
  | a :: rest =>
      match f a with
      | Some b => Some b
      | None => first_some f rest
      end
  end.

Fixpoint strip_zeros (fuel : nat) (s E : Z) : Z * Z :=
  match fuel with
  | O => (s, E)
  | S fuel' =>
      if (s mod 10 =? 0) && negb (s =? 0) then strip_zeros fuel' (s / 10) (E + 1)
      else (s, E)
  end.

Fixpoint count_digits (fuel : nat) (s : Z) : Z :=
  match fuel with
  | O => 1
  | S fuel' => if s <? 10 then 1 else 1 + count_digits fuel' (s / 10)
  end.

(** [Number::toString] of the positive double [m * 2 ^ e], as the
    literal it prints: the fewest digits that read back as the double,
    written out as a whole number up to 21 places and with an exponent
    beyond. *)
Definition shortest (m : positive) (e : Z) : Z * Z :=
  let x := S754_finite false m e in
  let num := if 0 <=? e then Zpos m * 2 ^ e else Zpos m in
  let den := if 0 <=? e then 1 else 2 ^ (- e) in
  let n := decimal_point num den in
  let '(s, E) :=
    match first_some (digits_of_length x num den n)
            (map Z.of_nat (seq 1 17)) with
    | Some digits => strip_zeros 20 (fst digits) (snd digits)
    | None => (scaled_floor num den (n - 17), n - 17)
    end in
  if (0 <=? E) && (count_digits 400 s + E <=? 21) then (s * 10 ^ E, 0)
  else (s, E).

(** [JSON.stringify] of a number: the digits of a finite one, [null] for
    the others; the sign of a zero is not printed. *)
Definition of_double (x : spec_float) : JsonValue :=
  match x with
  | S754_zero _ => JNumber 0 0
  | S754_finite s m e =>
      let '(c, E) := shortest m e in JNumber (if s then - c else c) E
  | S754_infinity _ | S754_nan => JNull
  end.

Fixpoint digits_value (acc : N) (s : string) : option N :=
  match s with
  | EmptyString => Some acc
  | String c r =>
      if UrlEncoded.is_ascii_digit c
      then digits_value (10 * acc + (N_of_ascii c - 48)) r
      else None
  end.

(** An array index: the canonical decimal of a whole number below
    [2 ^ 32 - 1]. *)
Definition array_index (key : string) : option N :=
  match key with
  | EmptyString => None
  | String c r =>
      if Ascii.eqb c "0" && negb (String.eqb r "") then None
      else match digits_value 0 key with
           | Some n => if (n <? 4294967295)%N then Some n else None
           | None => None
           end
  end.

(** [CreateDataProperty]: a new key goes last, a key already there keeps
    its place and takes the new value. *)
Fixpoint define (props : list (string * JsonValue)) (key : string)
    (value : JsonValue) : list (string * JsonValue) :=
  match props with
  | [] => [(key, value)]
  | (k, v) :: rest =>
      if String.eqb k key then (k, value) :: rest
      else (k, v) :: define rest key value
  end.

Fixpoint insert_by_index (n : N) (p : string * JsonValue)
    (sorted : list (N * (string * JsonValue)))
    : list (N * (string * JsonValue)) :=
  match sorted with
  | [] => [(n, p)]
  | (n', p') :: rest =>
      if (n <? n')%N then (n, p) :: sorted
      else (n', p') :: insert_by_index n p rest
  end.

(** The order in which the properties of an object are listed: array
    indices in ascending order, then the other keys in the order they
    were created. *)
Definition property_order (props : list (string * JsonValue))
    : list (string * JsonValue) :=
  let indexed :=
    fold_left (fun sorted p =>
                 match array_index (fst p) with
                 | Some n => insert_by_index n p sorted
                 | None => sorted
                 end) props [] in
  let named :=
    List.filter (fun p => match array_index (fst p) with
                     | Some _ => false
                     | None => true
                     end) props in
  (map snd indexed ++ named)%list.

(** [JSON.stringify (JSON.parse text)] for the text of a document. *)
Fixpoint round_trip (doc : JsonValue) : JsonValue :=
  match doc with
  | JNumber c e => of_double (to_double c e)
  | JArray items => JArray (map round_trip items)
  | JObject members =>
      JObject (property_order
        ((fix create (ms props : list (string * JsonValue)) :=
            match ms with
            | [] => props
            | (k, v) :: rest => create rest (define props k (round_trip v))
            end) members []))
  | other => other
  end.

End JSON.

(** A [Response] whose body is the text of the document [body]:
    [response.json()] settles to the value parsed from it. *)
Definition response_with_body (code : Z) (text : string) (body : JsonValue)
    : FetchResponse :=
  {| status := code; statusText := text;
     json_result := inr (JSON.round_trip body) |}.

Module BodySamples.

(** [{"id":12345678901234567890}] *)
Definition big_id : JsonValue :=
  JObject [("id", JNumber 12345678901234567890 0)].

Definition sends (body : JsonValue) (_ : FetchRequest) : FetchOutcome :=
  Fulfilled (response_with_body 200 "OK" body).

End BodySamples.

(** * Properties *)

(** ** The encoder and the parser on examples *)

Example percent_encode_plain :
  UrlEncoded.percent_encode "VitalikButerin" = "VitalikButerin".
Proof. reflexivity. Qed.

Example percent_encode_special :
  UrlEncoded.percent_encode "a&b=c d#e+f" = "a%26b%3Dc+d%23e%2Bf".
Proof. reflexivity. Qed.

Example parse_two :
  UrlEncoded.parse "username=a%26b&user_id=1+2" =
  [("username", "a&b"); ("user_id", "1 2")].
Proof. reflexivity. Qed.

(** ** Strings *)

Module StringFacts.

Lemma append_cons c (a b : string) : String c a ++ b = String c (a ++ b).
Proof. reflexivity. Qed.

Lemma append_nil_l (b : string) : "" ++ b = b.
Proof. reflexivity. Qed.

Lemma append_nil_r (a : string) : a ++ "" = a.
Proof. induction a as [|c a IH]; [reflexivity|]. rewrite append_cons, IH. reflexivity. Qed.

Lemma append_assoc (a b c : string) : (a ++ b) ++ c = a ++ b ++ c.
Proof.
  induction a as [|x a IH]; [reflexivity|].
  rewrite !append_cons, IH. reflexivity.
Qed.

Lemma occurs_append c a b : occurs c (a ++ b) = occurs c a || occurs c b.
Proof.
  induction a as [|x a IH]; [reflexivity|].
  rewrite append_cons. cbn [occurs]. rewrite IH, orb_assoc. reflexivity.
Qed.

Lemma all_bytes_append p a b :
  all_bytes p (a ++ b) = all_bytes p a && all_bytes p b.
Proof.
  induction a as [|x a IH]; [reflexivity|].
  rewrite append_cons. cbn [all_bytes]. rewrite IH, andb_assoc. reflexivity.
Qed.

Lemma all_bytes_weaken (p q : ascii -> bool) s :
  (forall c, p c = true -> q c = true) ->
  all_bytes p s = true -> all_bytes q s = true.
Proof.
  intros Hpq. induction s as [|c r IH]; [reflexivity|]. cbn [all_bytes].
  intros [Hc Hr]%andb_true_iff. rewrite (Hpq c Hc), (IH Hr). reflexivity.
Qed.

Lemma before_absent sep s : occurs sep s = false -> before sep s = s.
Proof.
  induction s as [|c r IH]; [reflexivity|]. cbn [occurs before].
  intros [Hc Hr]%orb_false_iff. rewrite Hc, (IH Hr). reflexivity.
Qed.

Lemma eqb_append_nonempty (a b : string) c :
  String.eqb (a ++ String c b) "" = false.
Proof. destruct a; reflexivity. Qed.

End StringFacts.

(** ** Percent-encoding, byte by byte *)

Module UrlEncodedFacts.
Import UrlEncoded.

Lemma percent_encode_byte_encoded c r :
  all_bytes is_encoded_byte (percent_encode_byte c r)
  = all_bytes is_encoded_byte r.
Proof. each_byte c; reflexivity. Qed.

Lemma percent_encode_encoded s :
  all_bytes is_encoded_byte (percent_encode s) = true.
Proof.
  induction s as [|c r IH]; [reflexivity|]. cbn [percent_encode].
  destruct (Ascii.eqb c " ") eqn:Hsp; [exact IH|].
  destruct (is_urlencoded_safe c) eqn:Hsafe.
  - cbn [all_bytes]. rewrite IH. unfold is_encoded_byte. rewrite Hsafe. reflexivity.
  - rewrite percent_encode_byte_encoded. exact IH.
Qed.

Lemma all_bytes_occurs p c s :
  p c = false -> all_bytes p s = true -> occurs c s = false.
Proof.
  intros Hc. induction s as [|d r IH]; [reflexivity|]. cbn.
  intros [Hd Hr]%andb_true_iff.
  rewrite (IH Hr), orb_false_r. apply Ascii.eqb_neq. congruence.
Qed.

Lemma percent_encode_free c s :
  is_encoded_byte c = false -> occurs c (percent_encode s) = false.
Proof. intros Hc. eapply all_bytes_occurs; eauto using percent_encode_encoded. Qed.

Lemma decode_encoded_byte c r :
  decode_component (percent_encode_byte c r) = String c (decode_component r).
Proof. unfold decode_component. each_byte c; reflexivity. Qed.

Lemma safe_not_plus_percent c :
  is_urlencoded_safe c = true ->
  Ascii.eqb c "+" = false /\ Ascii.eqb c "%" = false.
Proof. each_byte c; cbv; intuition congruence. Qed.

Lemma decode_percent_encode s : decode_component (percent_encode s) = s.
Proof.
  induction s as [|c r IH]; [reflexivity|]. cbn [percent_encode].
  destruct (Ascii.eqb c " ") eqn:Hsp.
  - apply Ascii.eqb_eq in Hsp. subst c.
    unfold decode_component in *. cbn. rewrite IH. reflexivity.
  - destruct (is_urlencoded_safe c) eqn:Hsafe.
    + destruct (safe_not_plus_percent c Hsafe) as [Hp Hq].
      unfold decode_component in *. cbn [plus_to_space]. rewrite Hp.
      cbn [percent_decode]. rewrite Hq, IH. reflexivity.
    + rewrite decode_encoded_byte, IH. reflexivity.
Qed.
End UrlEncodedFacts.

(** ** The parser inverts the serialiser *)

Module ParseFacts.
Import UrlEncoded UrlEncodedFacts StringFacts.

Lemma split_on_absent sep s :
  occurs sep s = false -> split_on sep s = [s].
Proof.
  induction s as [|c r IH]; [reflexivity|]. cbn [occurs split_on].
  intros [Hc Hr]%orb_false_iff. rewrite Hc, (IH Hr). reflexivity.
Qed.

Lemma split_on_first sep a b :
  occurs sep a = false ->
  split_on sep (a ++ String sep b) = a :: split_on sep b.
Proof.
  induction a as [|c r IH].
  - intros _. rewrite append_nil_l. cbn [split_on].
    rewrite Ascii.eqb_refl. reflexivity.
  - cbn [occurs]. intros [Hc Hr]%orb_false_iff.
    rewrite append_cons. cbn [split_on]. rewrite Hc, (IH Hr). reflexivity.
Qed.

Lemma cut_at_first_equals n v :
  occurs "=" n = false -> cut_at_equals (n ++ String "=" v) = (n, v).
Proof.
  induction n as [|c r IH].
  - intros _. reflexivity.
  - cbn [occurs]. intros [Hc Hr]%orb_false_iff.
    rewrite append_cons. cbn [cut_at_equals]. rewrite Hc, (IH Hr). reflexivity.
Qed.

Lemma occurs_nonempty c s : occurs c s = true -> s <> "".
Proof. intros H ->. discriminate. Qed.

Lemma serialize_step_nonempty output t : serialize_step output t <> "".
Proof.
  apply (occurs_nonempty "="). unfold serialize_step.
  rewrite !occurs_append. cbn [occurs Ascii.eqb Bool.eqb orb].
  rewrite !orb_true_r. reflexivity.
Qed.

Lemma serialize_from acc l :
  acc <> "" ->
  fold_left serialize_step l acc = acc ++ more_tuples l.
Proof.
  revert acc. induction l as [|t l IH]; intros acc Hacc.
  - cbn. rewrite append_nil_r. reflexivity.
  - cbn [fold_left more_tuples].
    rewrite IH by apply serialize_step_nonempty.
    unfold serialize_step. apply String.eqb_neq in Hacc. rewrite Hacc.
    fold (tuple_text t). rewrite !append_assoc. reflexivity.
Qed.

Lemma serialize_cons t l :
  serialize (t :: l) = tuple_text t ++ more_tuples l.
Proof.
  unfold serialize. cbn [fold_left].
  rewrite serialize_from by apply serialize_step_nonempty.
  reflexivity.
Qed.

Lemma tuple_text_free c t :
  is_encoded_byte c = false -> Ascii.eqb "=" c = false ->
  occurs c (tuple_text t) = false.
Proof.
  intros Hc He. unfold tuple_text.
  rewrite !occurs_append, !percent_encode_free by assumption.
  cbn [occurs orb]. rewrite He. reflexivity.
Qed.

Lemma parse_tuple_text t : parse_sequence (tuple_text t) = [t].
Proof.
  destruct t as [n v]. unfold parse_sequence, tuple_text. cbn [fst snd].
  change ("=" ++ percent_encode v) with (String "=" (percent_encode v)).
  rewrite eqb_append_nonempty, cut_at_first_equals
    by (apply percent_encode_free; reflexivity).
  rewrite !decode_percent_encode. reflexivity.
Qed.

Lemma split_tuples t l :
  split_on "&" (tuple_text t ++ more_tuples l) = map tuple_text (t :: l).
Proof.
  revert t. induction l as [|t' l IH]; intros t.
  - cbn [more_tuples map]. rewrite append_nil_r.
    apply split_on_absent, tuple_text_free; reflexivity.
  - cbn [more_tuples].
    change ("&" ++ tuple_text t' ++ more_tuples l)
      with (String "&" (tuple_text t' ++ more_tuples l)).
    rewrite split_on_first by (apply tuple_text_free; reflexivity).
    rewrite IH. reflexivity.
Qed.

(** Reading back what the serialiser wrote gives the tuples again. *)
Lemma parse_serialize l : parse (serialize l) = l.
Proof.
  destruct l as [|t l]; [reflexivity|].
  rewrite serialize_cons. unfold parse. rewrite split_tuples.
  generalize (t :: l). clear. intros l.
  induction l as [|t l IH]; [reflexivity|].
  cbn [map flat_map]. rewrite parse_tuple_text, IH. reflexivity.
Qed.

Lemma encoded_is_query c : is_encoded_byte c = true -> is_query_byte c = true.
Proof. unfold is_query_byte. intros ->. reflexivity. Qed.

Lemma tuple_text_query t : all_bytes is_query_byte (tuple_text t) = true.
Proof.
  unfold tuple_text. rewrite !all_bytes_append.
  rewrite !(all_bytes_weaken _ _ _ encoded_is_query (percent_encode_encoded _)).
  reflexivity.
Qed.

Lemma more_tuples_query l : all_bytes is_query_byte (more_tuples l) = true.
Proof.
  induction l as [|t l IH]; [reflexivity|]. cbn [more_tuples].
  rewrite !all_bytes_append, tuple_text_query, IH. reflexivity.
Qed.

Lemma serialize_query l : all_bytes is_query_byte (serialize l) = true.
Proof.
  destruct l as [|t l]; [reflexivity|].
  rewrite serialize_cons, all_bytes_append, tuple_text_query, more_tuples_query.
  reflexivity.
Qed.

Lemma url_query_endpoint q :
  all_bytes is_query_byte q = true -> url_query (endpoint ++ "?" ++ q) = q.
Proof.
  intros Hq. unfold url_query.
  rewrite before_absent.
  - reflexivity.
  - rewrite !occurs_append, (all_bytes_occurs is_query_byte "#" q) by easy.
    reflexivity.
Qed.

End ParseFacts.
(** ** The handler plays one row of the table *)

Section Refinement.

Variable upstream : FetchRequest -> FetchOutcome.
Variable req : Request.

Lemma supplied_value_truthy key :
  supplied_value req key =
  if truthy (query req !! key) then Some (to_string (query req !! key))
  else None.
Proof.
  unfold supplied_value, truthy, to_string.
  destruct (query req !! key) as [v|]; [|reflexivity].
  destruct (decide (v = "")) as [->|Hv]; [reflexivity|].
  apply String.eqb_neq in Hv. rewrite Hv. reflexivity.
Qed.

Lemma absent_truthy key :
  absent req key <-> truthy (query req !! key) = false.
Proof.
  unfold absent, truthy. destruct (query req !! key) as [v|].
  - rewrite negb_false_iff, String.eqb_eq. split.
    + intros [H|H]; congruence.
    + intros ->. right. reflexivity.
  - split; [reflexivity | intros _; left; reflexivity].
Qed.

Lemma queryParams_supplied :
  append_if (query req !! "user_id") "user_id"
    (append_if (query req !! "username") "username" URLSearchParams.new)
  = supplied req.
Proof.
  unfold supplied, append_if, URLSearchParams.append, URLSearchParams.new.
  cbn [omap list_omap]. rewrite !supplied_value_truthy.
  destruct (truthy (query req !! "username")),
           (truthy (query req !! "user_id")); reflexivity.
Qed.

Lemma supplied_nil :
  negb (truthy (query req !! "username"))
    && negb (truthy (query req !! "user_id"))
  = bool_decide (supplied req = []).
Proof.
  unfold supplied. cbn [omap list_omap]. rewrite !supplied_value_truthy.
  destruct (truthy (query req !! "username")),
           (truthy (query req !! "user_id")); reflexivity.
Qed.

Lemma supplied_nil_absent :
  supplied req = [] <-> absent req "username" /\ absent req "user_id".
Proof.
  rewrite !absent_truthy, <- !negb_true_iff, <- andb_true_iff, supplied_nil.
  rewrite bool_decide_eq_true. reflexivity.
Qed.

Lemma some_supplied_cons :
  some_supplied req -> exists t l, supplied req = t :: l.
Proof.
  unfold some_supplied. rewrite <- supplied_nil_absent.
  destruct (supplied req) as [|t l]; [congruence | eauto].
Qed.

Lemma ok_decide r : ok r = bool_decide (200 <= status r <= 299).
Proof.
  unfold ok. case_bool_decide as H.
  - apply andb_true_iff. split; apply Z.leb_le; lia.
  - apply andb_false_iff. rewrite !Z.leb_gt. lia.
Qed.

(** Whatever the world it starts from, an invocation completes
    normally and leaves the world its row of the table describes. *)
Lemma handler_refines_table w :
  handler upstream req w = (Normal tt, after_row (table upstream req) w).
Proof.
  unfold table, handler, try_block, catch_block,
    async_function, bind, when, try_catch.
  destruct (decide (method req = "OPTIONS")) as [Ho|Ho].
  { rewrite Ho. cbn. unfold after_row. cbn. rewrite !app_nil_r. reflexivity. }
  apply String.eqb_neq in Ho. rewrite Ho.
  destruct (decide (method req = "GET")) as [Hg|Hg].
  2:{ apply String.eqb_neq in Hg. rewrite Hg. cbn. unfold after_row; cbn.
      rewrite !app_nil_r. reflexivity. }
  rewrite Hg. cbn [String.eqb negb].
  rewrite queryParams_supplied, supplied_nil.
  change (mkFetchRequest _ _ _) with (upstream_call req).
  destruct (supplied req) as [|p ps] eqn:Hs.
  { cbn. unfold after_row; cbn. rewrite !app_nil_r. reflexivity. }
  rewrite bool_decide_eq_false_2 by discriminate.
  cbn. unfold fetch.
  destruct (upstream (upstream_call req)) as [r|e] eqn:Hup.
  2:{ cbn. reflexivity. }
  rewrite ok_decide.
  destruct (decide (200 <= status r <= 299)) as [Hok|Hok].
  - rewrite bool_decide_eq_true_2 by assumption. cbn.
    unfold response_json. destruct (json_result r) as [e|data]; cbn.
    + reflexivity.
    + unfold after_row; cbn. rewrite !app_nil_r. reflexivity.
  - rewrite bool_decide_eq_false_2 by assumption. cbn. reflexivity.
Qed.

(** When the [try] block throws, the row is the internal-error row. *)
Lemma try_block_throws w0 e :
  method req = "GET" ->
  fst (try_block upstream req w0) = Throw e ->
  table upstream req = internal_error_row e [upstream_call req].
Proof.
  intros Hg. unfold table, try_block, bind, when.
  destruct (decide (method req = "OPTIONS")) as [Ho|_]; [congruence|].
  destruct (decide (method req = "GET")) as [_|?]; [|contradiction].
  rewrite queryParams_supplied, supplied_nil.
  change (mkFetchRequest _ _ _) with (upstream_call req).
  destruct (supplied req) as [|p ps] eqn:Hs.
  { cbn. discriminate. }
  rewrite bool_decide_eq_false_2 by discriminate.
  cbn. unfold fetch.
  destruct (upstream (upstream_call req)) as [r|e'] eqn:Hup.
  2:{ cbn. congruence. }
  rewrite ok_decide.
  destruct (decide (200 <= status r <= 299)) as [Hok|Hok].
  - rewrite bool_decide_eq_true_2 by assumption. cbn.
    unfold response_json. destruct (json_result r) as [e'|data]; cbn.
    + congruence.
    + discriminate.
  - rewrite bool_decide_eq_false_2 by assumption. cbn. discriminate.
Qed.

(** The rows, one lemma per condition of the table. *)

Lemma table_options :
  method req = "OPTIONS" -> table upstream req = mkRow 200 NoBody [] [].
Proof. intros H. unfold table. rewrite decide_True by assumption. reflexivity. Qed.

Lemma table_other_method :
  method req <> "GET" -> method req <> "OPTIONS" ->
  table upstream req = error_row 405 "Method not allowed" [] [].
Proof.
  intros Hg Ho. unfold table.
  rewrite decide_False, decide_False by assumption. reflexivity.
Qed.

Lemma table_missing :
  method req = "GET" -> absent req "username" -> absent req "user_id" ->
  table upstream req = error_row 400 "username or user_id required" [] [].
Proof.
  intros Hg Hu Hi. unfold table.
  rewrite decide_False by (rewrite Hg; discriminate).
  rewrite decide_True by assumption.
  rewrite (proj2 supplied_nil_absent (conj Hu Hi)). reflexivity.
Qed.

Lemma table_forwarded :
  method req = "GET" -> some_supplied req ->
  table upstream req =
  match upstream (upstream_call req) with
  | Rejected e => internal_error_row e [upstream_call req]
  | Fulfilled r =>
      if decide (200 <= status r <= 299) then
        match json_result r with
        | inr data => mkRow 200 (JsonBody data) [] [upstream_call req]
        | inl e => internal_error_row e [upstream_call req]
        end
      else
        error_row 502 "Upstream error"
          [[LogString ("Kaito API error: " ++ pretty (status r)
                         ++ " " ++ statusText r)]] [upstream_call req]
  end.
Proof.
  intros Hg Hs. unfold table.
  rewrite decide_False by (rewrite Hg; discriminate).
  rewrite decide_True by assumption.
  destruct (some_supplied_cons Hs) as (t & l & ->). reflexivity.
Qed.

(** What an observer sees of the row. *)

Lemma completes_normally w : fst (handler upstream req w) = Normal tt.
Proof. rewrite handler_refines_table. reflexivity. Qed.

Lemma sent_during_row w :
  sent_during (handler upstream req) w =
  [{| sent_status := row_status (table upstream req);
      sent_headers := with_cors (headers (res w));
      sent_body := row_body (table upstream req) |}].
Proof.
  unfold sent_during, since. rewrite handler_refines_table.
  cbn [snd after_row res sent]. rewrite drop_app_length. reflexivity.
Qed.

Lemma responses_row w :
  responses (handler upstream req) w =
  [(row_status (table upstream req), row_body (table upstream req))].
Proof. unfold responses. rewrite sent_during_row. reflexivity. Qed.

Lemma calls_row w :
  calls (handler upstream req) w = row_calls (table upstream req).
Proof.
  unfold calls, since. rewrite handler_refines_table.
  cbn [snd after_row network]. apply drop_app_length.
Qed.

Lemma logged_row w :
  logged (handler upstream req) w = row_log (table upstream req).
Proof.
  unfold logged, since. rewrite handler_refines_table.
  cbn [snd after_row console]. apply drop_app_length.
Qed.

End Refinement.

(** ** Shared facts about forwarded requests *)

Lemma some_supplied_truthy req :
  truthy (query req !! "username") || truthy (query req !! "user_id") = true ->
  some_supplied req.
Proof.
  intros H [Hu Hi]. apply absent_truthy in Hu, Hi.
  rewrite Hu, Hi in H. discriminate.
Qed.

Lemma supplied_value_spec req key v :
  supplied_value req key = Some v <-> query req !! key = Some v /\ v <> "".
Proof.
  unfold supplied_value. destruct (query req !! key) as [x|].
  - destruct (decide (x = "")) as [->|Hx].
    + split; [discriminate | intros [[= <-] H]; contradiction].
    + split; [intros [= <-]; auto | intros [[= <-] _]; reflexivity].
  - split; [discriminate | intros [H _]; discriminate].
Qed.

Lemma supplied_ext req1 req2 :
  query req1 !! "username" = query req2 !! "username" ->
  query req1 !! "user_id" = query req2 !! "user_id" ->
  supplied req1 = supplied req2.
Proof.
  intros Hu Hi. unfold supplied, supplied_value. cbn [omap list_omap].
  rewrite Hu, Hi. reflexivity.
Qed.

(** A GET request with a parameter makes exactly the call of step 7,
    however the upstream answers. *)
Lemma calls_forwarded upstream req w :
  method req = "GET" -> some_supplied req ->
  calls (handler upstream req) w = [upstream_call req].
Proof.
  intros Hg Hs. rewrite calls_row, table_forwarded by assumption.
  destruct (upstream (upstream_call req)) as [r|e]; [|reflexivity].
  destruct (decide (200 <= status r <= 299)); [|reflexivity].
  destruct (json_result r); reflexivity.
Qed.

Lemma table_get_json upstream req :
  method req = "GET" -> exists v, row_body (table upstream req) = JsonBody v.
Proof.
  intros Hg. unfold table.
  rewrite decide_False by (rewrite Hg; discriminate).
  rewrite decide_True by assumption.
  destruct (supplied req); [eexists; reflexivity|].
  destruct (upstream (upstream_call req)) as [r|e]; [|eexists; reflexivity].
  destruct (decide (200 <= status r <= 299)); [|eexists; reflexivity].
  destruct (json_result r); eexists; reflexivity.
Qed.

Lemma with_cors_lookup h :
  with_cors h !! "Access-Control-Allow-Origin" = Some "*" /\
  with_cors h !! "Access-Control-Allow-Methods" = Some "GET" /\
  with_cors h !! "Access-Control-Allow-Headers" = Some "Content-Type".
Proof.
  unfold with_cors. repeat split.
  - rewrite !lookup_insert_ne by discriminate. apply lookup_insert_eq.
  - rewrite lookup_insert_ne by discriminate. apply lookup_insert_eq.
  - apply lookup_insert_eq.
Qed.

Lemma in_supplied req k v :
  In (k, v) (supplied req) <->
  (k = "username" \/ k = "user_id") /\ supplied_value req k = Some v.
Proof.
  unfold supplied. cbn [omap list_omap].
  destruct (supplied_value req "username") as [u|] eqn:Hu,
           (supplied_value req "user_id") as [i|] eqn:Hi;
    cbn [fmap option_fmap option_map];
    (split;
     [ intros Hin;
       repeat (destruct Hin as [[= <- <-]|Hin]; [split; auto|]);
       destruct Hin
     | intros [[-> | ->] Hv]; rewrite ?Hu, ?Hi in Hv; try discriminate;
       injection Hv as <-; cbn [In]; auto ]).
Qed.

(** ** The table on examples *)

(** An upstream that answers 200 with the body [{"a":1}]. *)
Example pass_through_a1 :
  responses
    (handler (fun _ => Fulfilled {| status := 200; statusText := "OK";
                                    json_result :=
                                      inr (JObject [("a", JNumber 1 0)]) |})
             Samples.by_id) fresh_world
  = [(200, JsonBody (JObject [("a", JNumber 1 0)]))].
Proof. reflexivity. Qed.

Example garbled_body_is_500 :
  responses (handler Samples.garbled Samples.vitalik) fresh_world
  = [(500, JsonBody (JObject [("error", JString "Internal server error")]))]
  /\ logged (handler Samples.garbled Samples.vitalik) fresh_world
  = [[LogString "Proxy error:";
      LogError {| error_name := "SyntaxError";
                  error_message := "Unexpected token <" |}]].
Proof. split; reflexivity. Qed.

Example not_found_is_logged :
  logged (handler Samples.not_found Samples.vitalik) fresh_world
  = [[LogString "Kaito API error: 404 Not Found"]].
Proof. reflexivity. Qed.

Example only_user_id_is_forwarded :
  map url (calls (handler Samples.healthy Samples.by_id) fresh_world)
  = ["https://api.kaito.ai/api/v1/yaps?user_id=295218901"].
Proof. reflexivity. Qed.

(** * The properties of the specification *)

(** C1. For a GET request with at least one of username and user_id
    supplied, when the upstream answers the call with a 2xx status and a
    body that parses as JSON, the handler responds once, with status 200,
    and hands to [res.json] exactly the value [response.json()] parsed:
    it filters, renames, adds and validates nothing.  The body sent is
    the upstream document as JavaScript reads and prints it, and is the
    upstream document itself whenever the document survives that round
    trip. *)
Theorem success_forwards_parsed_value upstream req w :
  method req = "GET" -> some_supplied req ->
  (forall r data,
     upstream (upstream_call req) = Fulfilled r ->
     200 <= status r <= 299 ->
     json_result r = inr data ->
     calls (handler upstream req) w = [upstream_call req] /\
     responses (handler upstream req) w = [(200, JsonBody data)]) /\
  (forall code text body,
     upstream (upstream_call req)
       = Fulfilled (response_with_body code text body) ->
     200 <= code <= 299 ->
     responses (handler upstream req) w
       = [(200, JsonBody (JSON.round_trip body))] /\
     (JSON.round_trip body = body ->
      responses (handler upstream req) w = [(200, JsonBody body)])).
Proof.
  intros Hg Hs.
  assert (Hvalue : forall r data,
    upstream (upstream_call req) = Fulfilled r ->
    200 <= status r <= 299 ->
    json_result r = inr data ->
    responses (handler upstream req) w = [(200, JsonBody data)]).
  { intros r data Hup Hok Hjson.
    rewrite responses_row, table_forwarded, Hup by assumption.
    rewrite decide_True by assumption. rewrite Hjson. reflexivity. }
  split.
  - intros r data Hup Hok Hjson.
    split; [apply calls_forwarded; assumption | eauto].
  - intros code text body Hup Hok.
    pose proof (Hvalue _ (JSON.round_trip body) Hup Hok eq_refl) as Hsent.
    split; [exact Hsent|]. intros Hsame. rewrite Hsent, Hsame. reflexivity.
Qed.

Lemma success_forwards_parsed_value_witness :
  (method Samples.vitalik = "GET" /\ some_supplied Samples.vitalik /\
   200 <= 200 <= 299 /\
   JSON.round_trip Samples.vitalik_json = Samples.vitalik_json) /\
  responses (handler (BodySamples.sends Samples.vitalik_json) Samples.vitalik)
    fresh_world
    = [(200, JsonBody Samples.vitalik_json)].
Proof.
  pose proof (eq_refl : method Samples.vitalik = "GET") as Hg.
  pose proof (some_supplied_truthy Samples.vitalik eq_refl) as Hs.
  assert (Hok : 200 <= 200 <= 299) by lia.
  assert (Hsame : JSON.round_trip Samples.vitalik_json = Samples.vitalik_json)
    by (vm_compute; reflexivity).
  exact (conj (conj Hg (conj Hs (conj Hok Hsame)))
           (proj2 (proj2 (success_forwards_parsed_value
                            (BodySamples.sends Samples.vitalik_json)
                            Samples.vitalik fresh_world Hg Hs)
                    200 "OK" Samples.vitalik_json eq_refl Hok) Hsame)).
Defined.

(** The body is not always the upstream document: a GET request to an
    upstream that answers 200 with [{"id":12345678901234567890}] is
    answered with [{"id":12345678901234567000}], the number having gone
    through a double. *)
Lemma big_number_is_not_forwarded_verbatim :
  (method Samples.vitalik = "GET" /\ some_supplied Samples.vitalik /\
   BodySamples.sends BodySamples.big_id (upstream_call Samples.vitalik)
     = Fulfilled (response_with_body 200 "OK" BodySamples.big_id) /\
   200 <= 200 <= 299) /\
  responses (handler (BodySamples.sends BodySamples.big_id) Samples.vitalik)
    fresh_world
    = [(200, JsonBody (JObject [("id", JNumber 12345678901234567000 0)]))] /\
  responses (handler (BodySamples.sends BodySamples.big_id) Samples.vitalik)
    fresh_world
    <> [(200, JsonBody BodySamples.big_id)].
Proof.
  assert (Hsent :
    responses (handler (BodySamples.sends BodySamples.big_id) Samples.vitalik)
      fresh_world
    = [(200, JsonBody (JObject [("id", JNumber 12345678901234567000 0)]))])
    by (vm_compute; reflexivity).
  split; [|split; [exact Hsent|]].
  - split; [reflexivity|]. split; [apply some_supplied_truthy; reflexivity|].
    split; [reflexivity | lia].
  - rewrite Hsent. discriminate.
Qed.

(** Documents that survive the round trip, and one that does not:
    [{"a":1}], the sample body, and an object with a repeated name and an
    index among its names. *)
Example round_trip_samples :
  JSON.round_trip (JObject [("a", JNumber 1 0)]) = JObject [("a", JNumber 1 0)]
  /\ JSON.round_trip Samples.vitalik_json = Samples.vitalik_json
  /\ JSON.round_trip
       (JObject [("b", JNumber 1 0); ("1", JNumber 15 (-1));
                 ("b", JNumber 1 400)])
     = JObject [("1", JNumber 15 (-1)); ("b", JNull)].
Proof. repeat split; vm_compute; reflexivity. Qed.

(** C2. For a GET request with at least one of username and user_id
    supplied, the one outbound call has the endpoint followed by a query
    string made of exactly the parameters supplied with a non-empty value:
    username alone, user_id alone, or both in that order; an absent or
    empty parameter does not appear, and no other key of the inbound
    query does.  Read as parameters, the query holds exactly those and no
    others, because an encoded value holds none of the bytes [&], [=],
    [#], [?] and space. *)
Theorem outbound_query_exact upstream req w :
  method req = "GET" -> some_supplied req ->
  map url (calls (handler upstream req) w) =
  [endpoint ++ "?" ++
     match supplied_value req "username", supplied_value req "user_id" with
     | Some u, Some i =>
         "username=" ++ UrlEncoded.percent_encode u
           ++ "&user_id=" ++ UrlEncoded.percent_encode i
     | Some u, None => "username=" ++ UrlEncoded.percent_encode u
     | None, Some i => "user_id=" ++ UrlEncoded.percent_encode i
     | None, None => ""
     end] /\
  map (fun c => UrlEncoded.parse (url_query (url c)))
      (calls (handler upstream req) w) =
  [match supplied_value req "username", supplied_value req "user_id" with
   | Some u, Some i => [("username", u); ("user_id", i)]
   | Some u, None => [("username", u)]
   | None, Some i => [("user_id", i)]
   | None, None => []
   end] /\
  (forall value separator,
     In separator ["&"; "="; "#"; "?"; " "]%char ->
     occurs separator (UrlEncoded.percent_encode value) = false).
Proof.
  intros Hg Hs. rewrite calls_forwarded by assumption.
  cbn [map url upstream_call]. split; [|split].
  - do 3 f_equal. unfold supplied. cbn [omap list_omap].
    destruct (supplied_value req "username") as [u|],
             (supplied_value req "user_id") as [i|];
      cbn [fmap option_fmap option_map].
    + rewrite ParseFacts.serialize_cons. cbn [more_tuples].
      unfold tuple_text. cbn [fst snd].
      rewrite StringFacts.append_nil_r, !StringFacts.append_assoc.
      reflexivity.
    + reflexivity.
    + reflexivity.
    + reflexivity.
  - rewrite ParseFacts.url_query_endpoint by apply ParseFacts.serialize_query.
    rewrite ParseFacts.parse_serialize. f_equal.
    unfold supplied. cbn [omap list_omap].
    destruct (supplied_value req "username") as [u|],
             (supplied_value req "user_id") as [i|]; reflexivity.
  - intros value separator Hin.
    apply UrlEncodedFacts.percent_encode_free.
    cbn [In] in Hin.
    destruct Hin as [<-|[<-|[<-|[<-|[<-|[]]]]]]; reflexivity.
Qed.

Lemma outbound_query_exact_witness :
  (method Samples.both_unsafe = "GET" /\ some_supplied Samples.both_unsafe) /\
  map url (calls (handler Samples.not_found Samples.both_unsafe)
             Samples.used_world)
  = ["https://api.kaito.ai/api/v1/yaps?username=x%26user_id%3D1%23top%3D2&user_id=7+8"] /\
  map (fun c => UrlEncoded.parse (url_query (url c)))
      (calls (handler Samples.not_found Samples.both_unsafe)
         Samples.used_world)
  = [[("username", "x&user_id=1#top=2"); ("user_id", "7 8")]].
Proof.
  pose proof (eq_refl : method Samples.both_unsafe = "GET") as Hg.
  pose proof (some_supplied_truthy Samples.both_unsafe eq_refl) as Hs.
  pose proof (outbound_query_exact Samples.not_found Samples.both_unsafe
                Samples.used_world Hg Hs) as (Hurl & Hread & _).
  exact (conj (conj Hg Hs) (conj Hurl Hread)).
Defined.

(** C3. For a GET request in which username and user_id are both absent
    (undefined or empty), the handler responds once, with status 400 and
    body [{"error":"username or user_id required"}], and makes no
    outbound call. *)
Theorem missing_parameters_rejected upstream req w :
  method req = "GET" -> absent req "username" -> absent req "user_id" ->
  responses (handler upstream req) w
    = [(400, JsonBody (error_body "username or user_id required"))] /\
  calls (handler upstream req) w = [].
Proof.
  intros Hg Hu Hi.
  rewrite responses_row, calls_row, table_missing by assumption.
  split; reflexivity.
Qed.

Lemma missing_parameters_rejected_witness :
  (method Samples.no_parameters = "GET" /\
   absent Samples.no_parameters "username" /\
   absent Samples.no_parameters "user_id") /\
  responses (handler Samples.healthy Samples.no_parameters) fresh_world
    = [(400, JsonBody (JObject [("error",
                                 JString "username or user_id required")]))] /\
  calls (handler Samples.healthy Samples.no_parameters) fresh_world = [].
Proof.
  pose proof (eq_refl : method Samples.no_parameters = "GET") as Hg.
  pose proof (or_intror eq_refl : absent Samples.no_parameters "username") as Hu.
  pose proof (or_introl eq_refl : absent Samples.no_parameters "user_id") as Hi.
  exact (conj (conj Hg (conj Hu Hi))
           (missing_parameters_rejected Samples.healthy Samples.no_parameters
              fresh_world Hg Hu Hi)).
Defined.

(** C4. For a GET request with at least one parameter supplied, when the
    upstream answers the call with a status outside 200..299, the handler
    responds once, with status 502 and body [{"error":"Upstream error"}];
    the whole response (status, headers, body) is fixed, whatever the
    upstream status text and body are. *)
Theorem upstream_failure_is_opaque upstream req w r :
  method req = "GET" -> some_supplied req ->
  upstream (upstream_call req) = Fulfilled r ->
  ~ (200 <= status r <= 299) ->
  sent_during (handler upstream req) w
    = [{| sent_status := 502;
          sent_headers := with_cors (headers (res w));
          sent_body := JsonBody (error_body "Upstream error") |}] /\
  responses (handler upstream req) w
    = [(502, JsonBody (error_body "Upstream error"))].
Proof.
  intros Hg Hs Hup Hko.
  rewrite responses_row, sent_during_row, table_forwarded, Hup by assumption.
  rewrite decide_False by assumption. split; reflexivity.
Qed.

Lemma upstream_failure_is_opaque_witness :
  (method Samples.vitalik = "GET" /\ some_supplied Samples.vitalik /\
   ~ (200 <= 404 <= 299)) /\
  sent_during (handler Samples.not_found Samples.vitalik) fresh_world
    = [{| sent_status := 502;
          sent_headers := with_cors ∅;
          sent_body := JsonBody (JObject [("error", JString "Upstream error")]) |}] /\
  responses (handler Samples.not_found Samples.vitalik) fresh_world
    = [(502, JsonBody (JObject [("error", JString "Upstream error")]))].
Proof.
  pose proof (eq_refl : method Samples.vitalik = "GET") as Hg.
  pose proof (some_supplied_truthy Samples.vitalik eq_refl) as Hs.
  assert (Hko : ~ (200 <= 404 <= 299)) by lia.
  exact (conj (conj Hg (conj Hs Hko))
           (upstream_failure_is_opaque Samples.not_found Samples.vitalik
              fresh_world
              {| status := 404; statusText := "Not Found";
                 json_result :=
                   inr (JObject [("detail", JString "no such user")]) |}
              Hg Hs eq_refl Hko)).
Defined.

(** C5. For a GET request, the handler always completes normally (no
    throw escapes it) and sends exactly one response, with a JSON body;
    whenever the [try] block throws, and so when the transport fails or
    when the body of a 2xx answer is not valid JSON, that response has
    status 500 and body [{"error":"Internal server error"}]. *)
Theorem every_failure_is_caught upstream req w :
  method req = "GET" ->
  fst (handler upstream req w) = Normal tt /\
  (exists code v, responses (handler upstream req) w = [(code, JsonBody v)]) /\
  (forall w0 e,
     fst (try_block upstream req w0) = Throw e ->
     responses (handler upstream req) w
       = [(500, JsonBody (error_body "Internal server error"))]) /\
  (forall e,
     some_supplied req -> upstream (upstream_call req) = Rejected e ->
     responses (handler upstream req) w
       = [(500, JsonBody (error_body "Internal server error"))]) /\
  (forall r e,
     some_supplied req -> upstream (upstream_call req) = Fulfilled r ->
     200 <= status r <= 299 -> json_result r = inl e ->
     responses (handler upstream req) w
       = [(500, JsonBody (error_body "Internal server error"))]).
Proof.
  intros Hg.
  split; [apply completes_normally|]. split; [|split; [|split]].
  - destruct (table_get_json upstream req Hg) as [v Hv].
    exists (row_status (table upstream req)), v.
    rewrite responses_row, Hv. reflexivity.
  - intros w0 e Hthrow.
    rewrite responses_row, (try_block_throws upstream req w0 e Hg Hthrow).
    reflexivity.
  - intros e Hs Hup.
    rewrite responses_row, table_forwarded, Hup by assumption. reflexivity.
  - intros r e Hs Hup Hok Hjson.
    rewrite responses_row, table_forwarded, Hup by assumption.
    rewrite decide_True by assumption. rewrite Hjson. reflexivity.
Qed.

Lemma every_failure_is_caught_witness :
  method Samples.by_id = "GET" /\
  fst (try_block Samples.unreachable Samples.by_id fresh_world)
    = Throw {| error_name := "TypeError"; error_message := "fetch failed" |} /\
  fst (handler Samples.unreachable Samples.by_id fresh_world) = Normal tt /\
  responses (handler Samples.unreachable Samples.by_id) fresh_world
    = [(500, JsonBody (JObject [("error", JString "Internal server error")]))].
Proof.
  pose proof (eq_refl : method Samples.by_id = "GET") as Hg.
  pose proof (every_failure_is_caught Samples.unreachable Samples.by_id
                fresh_world Hg) as (Hnormal & _ & Hthrow & _).
  exact (conj Hg (conj eq_refl
           (conj Hnormal (Hthrow fresh_world _ eq_refl)))).
Defined.

(** C6. Every response the handler sends, on every path (preflight, 405,
    400, 502, 500 and success), carries the three CORS headers with the
    values [*], [GET] and [Content-Type]; there is exactly one response
    per invocation. *)
Theorem cors_headers_on_every_response upstream req w :
  exists r,
    sent_during (handler upstream req) w = [r] /\
    sent_headers r !! "Access-Control-Allow-Origin" = Some "*" /\
    sent_headers r !! "Access-Control-Allow-Methods" = Some "GET" /\
    sent_headers r !! "Access-Control-Allow-Headers" = Some "Content-Type".
Proof.
  eexists. split; [apply sent_during_row|]. apply with_cors_lookup.
Qed.

(** C7. For a request with method OPTIONS, whatever its query, the
    handler responds once, with status 200 and no body, makes no outbound
    call and logs nothing. *)
Theorem preflight_short_circuits upstream req w :
  method req = "OPTIONS" ->
  responses (handler upstream req) w = [(200, NoBody)] /\
  calls (handler upstream req) w = [] /\
  logged (handler upstream req) w = [].
Proof.
  intros Ho. rewrite responses_row, calls_row, logged_row, table_options
    by assumption.
  repeat split.
Qed.

Lemma preflight_short_circuits_witness :
  method Samples.preflight = "OPTIONS" /\
  responses (handler Samples.healthy Samples.preflight) fresh_world
    = [(200, NoBody)] /\
  calls (handler Samples.healthy Samples.preflight) fresh_world = [] /\
  logged (handler Samples.healthy Samples.preflight) fresh_world = [].
Proof.
  pose proof (eq_refl : method Samples.preflight = "OPTIONS") as Ho.
  exact (conj Ho (preflight_short_circuits Samples.healthy Samples.preflight
                    fresh_world Ho)).
Defined.

(** C8. For a request whose method is neither GET nor OPTIONS, whatever
    its query, the handler responds once, with status 405 and body
    [{"error":"Method not allowed"}], and makes no outbound call. *)
Theorem other_methods_rejected upstream req w :
  method req <> "GET" -> method req <> "OPTIONS" ->
  responses (handler upstream req) w
    = [(405, JsonBody (error_body "Method not allowed"))] /\
  calls (handler upstream req) w = [].
Proof.
  intros Hg Ho.
  rewrite responses_row, calls_row, table_other_method by assumption.
  split; reflexivity.
Qed.

Lemma other_methods_rejected_witness :
  (method Samples.post <> "GET" /\ method Samples.post <> "OPTIONS") /\
  responses (handler Samples.healthy Samples.post) fresh_world
    = [(405, JsonBody (JObject [("error", JString "Method not allowed")]))] /\
  calls (handler Samples.healthy Samples.post) fresh_world = [].
Proof.
  assert (Hg : method Samples.post <> "GET") by discriminate.
  assert (Ho : method Samples.post <> "OPTIONS") by discriminate.
  exact (conj (conj Hg Ho)
           (other_methods_rejected Samples.healthy Samples.post
              fresh_world Hg Ho)).
Defined.

(** C9. Two invocations with the same method, the same username and
    user_id, and an upstream that settles the call in the same way,
    respond with the same status and the same body, whatever the worlds
    they start from (earlier responses, log lines and calls) and whatever
    the other keys of their queries. *)
Theorem handler_deterministic upstream1 upstream2 req1 req2 w1 w2 :
  method req1 = method req2 ->
  query req1 !! "username" = query req2 !! "username" ->
  query req1 !! "user_id" = query req2 !! "user_id" ->
  upstream1 (upstream_call req1) = upstream2 (upstream_call req2) ->
  responses (handler upstream1 req1) w1 = responses (handler upstream2 req2) w2.
Proof.
  intros Hm Hu Hi Hup. rewrite !responses_row.
  assert (Hrow : table upstream1 req1 = table upstream2 req2).
  { unfold table. rewrite Hup, Hm, (supplied_ext req1 req2 Hu Hi).
    unfold upstream_call. rewrite (supplied_ext req1 req2 Hu Hi).
    reflexivity. }
  rewrite Hrow. reflexivity.
Qed.

Lemma handler_deterministic_witness :
  (method Samples.vitalik = method Samples.vitalik_paged /\
   query Samples.vitalik !! "username"
     = query Samples.vitalik_paged !! "username" /\
   query Samples.vitalik !! "user_id"
     = query Samples.vitalik_paged !! "user_id" /\
   Samples.healthy (upstream_call Samples.vitalik)
     = Samples.healthy (upstream_call Samples.vitalik_paged)) /\
  responses (handler Samples.healthy Samples.vitalik) fresh_world
  = responses (handler Samples.healthy Samples.vitalik_paged)
      Samples.used_world.
Proof.
  exact (conj (conj eq_refl (conj eq_refl (conj eq_refl eq_refl)))
           (handler_deterministic Samples.healthy Samples.healthy
              Samples.vitalik Samples.vitalik_paged
              fresh_world Samples.used_world
              eq_refl eq_refl eq_refl eq_refl)).
Defined.

(** C10. For a GET request with at least one parameter supplied, the URL
    of the outbound call is the endpoint, [?], and the URLSearchParams
    serialisation of the supplied pairs; reading the query of that URL
    back with the urlencoded parser gives exactly the supplied
    key-value pairs, whatever bytes the values contain ([&], [=] and [#]
    included); and the supplied pairs are exactly username and user_id
    with the non-empty values the request carries. *)
Theorem outbound_query_round_trips upstream req w :
  method req = "GET" -> some_supplied req ->
  map url (calls (handler upstream req) w)
    = [endpoint ++ "?" ++ URLSearchParams.toString (supplied req)] /\
  map (fun c => UrlEncoded.parse (url_query (url c)))
      (calls (handler upstream req) w)
    = [supplied req] /\
  (forall k v,
     In (k, v) (supplied req) <->
     (k = "username" \/ k = "user_id") /\ query req !! k = Some v /\ v <> "").
Proof.
  intros Hg Hs. rewrite calls_forwarded by assumption.
  cbn [map url upstream_call]. split; [reflexivity|]. split.
  - rewrite ParseFacts.url_query_endpoint by apply ParseFacts.serialize_query.
    rewrite ParseFacts.parse_serialize. reflexivity.
  - intros k v. rewrite in_supplied, supplied_value_spec. reflexivity.
Qed.

Lemma outbound_query_round_trips_witness :
  (method Samples.injecting = "GET" /\ some_supplied Samples.injecting) /\
  map url (calls (handler Samples.healthy Samples.injecting) fresh_world)
    = ["https://api.kaito.ai/api/v1/yaps?username=x%26user_id%3D1%23top%3D2"] /\
  map (fun c => UrlEncoded.parse (url_query (url c)))
      (calls (handler Samples.healthy Samples.injecting) fresh_world)
    = [[("username", "x&user_id=1#top=2")]].
Proof.
  pose proof (eq_refl : method Samples.injecting = "GET") as Hg.
  pose proof (some_supplied_truthy Samples.injecting eq_refl) as Hs.
  pose proof (outbound_query_round_trips Samples.healthy Samples.injecting
                fresh_world Hg Hs) as (Hurl & Hparse & _).
  exact (conj (conj Hg Hs) (conj Hurl Hparse)).
Defined.

(** * Further properties of the handler *)

(** The row of a request, by cases on what decides it. *)
Lemma table_cases upstream req :
  (method req = "OPTIONS" /\ table upstream req = mkRow 200 NoBody [] []) \/
  (method req <> "OPTIONS" /\ method req <> "GET" /\
   table upstream req = error_row 405 "Method not allowed" [] []) \/
  (method req = "GET" /\ ~ some_supplied req /\
   table upstream req = error_row 400 "username or user_id required" [] []) \/
  (method req = "GET" /\ some_supplied req /\
   ((exists e, upstream (upstream_call req) = Rejected e /\
       table upstream req = internal_error_row e [upstream_call req]) \/
    (exists r e, upstream (upstream_call req) = Fulfilled r /\
       200 <= status r <= 299 /\ json_result r = inl e /\
       table upstream req = internal_error_row e [upstream_call req]) \/
    (exists r data, upstream (upstream_call req) = Fulfilled r /\
       200 <= status r <= 299 /\ json_result r = inr data /\
       table upstream req = mkRow 200 (JsonBody data) [] [upstream_call req]) \/
    (exists r, upstream (upstream_call req) = Fulfilled r /\
       ~ (200 <= status r <= 299) /\
       table upstream req =
       error_row 502 "Upstream error"
         [[LogString ("Kaito API error: " ++ pretty (status r)
                        ++ " " ++ statusText r)]] [upstream_call req]))).
Proof.
  destruct (decide (method req = "OPTIONS")) as [Ho|Ho].
  { left. split; [assumption | apply table_options; assumption]. }
  destruct (decide (method req = "GET")) as [Hg|Hg].
  2:{ right. left. repeat split; try assumption.
      apply table_other_method; assumption. }
  destruct (decide (supplied req = [])) as [Hs|Hs].
  { right. right. left. apply supplied_nil_absent in Hs as Habs.
    split; [assumption|]. split.
    - intros H. apply H. exact Habs.
    - destruct Habs. apply table_missing; assumption. }
  assert (Hsome : some_supplied req).
  { intros H. apply Hs, supplied_nil_absent, H. }
  right. right. right. split; [assumption|]. split; [assumption|].
  rewrite table_forwarded by assumption.
  destruct (upstream (upstream_call req)) as [r|e] eqn:Hup.
  2:{ left. eauto. }
  destruct (decide (200 <= status r <= 299)) as [Hok|Hok].
  2:{ right. right. right. eauto. }
  destruct (json_result r) as [e|data] eqn:Hj.
  - right. left. exists r, e. auto.
  - right. right. left. exists r, data. auto.
Qed.

(** Either the request is forwarded, by one call, or no call goes out. *)
Lemma outbound_call_cases upstream req w :
  (method req = "GET" /\ some_supplied req /\
   calls (handler upstream req) w = [upstream_call req]) \/
  (~ (method req = "GET" /\ some_supplied req) /\
   calls (handler upstream req) w = []).
Proof.
  rewrite calls_row.
  destruct (table_cases upstream req)
    as [[Ho ->]|[(_ & Hg & ->)|[(_ & Hs & ->)|(Hg & Hs & Hrow)]]].
  - right. split; [|reflexivity]. rewrite Ho. intros [H _]. discriminate.
  - right. split; [tauto | reflexivity].
  - right. split; [tauto | reflexivity].
  - left. split; [assumption|]. split; [assumption|].
    destruct Hrow as [(e & _ & ->)|[(r & e & _ & _ & _ & ->)|
                      [(r & data & _ & _ & _ & ->)|(r & _ & _ & ->)]]];
      reflexivity.
Qed.

(** X1. The handler answers with one of five statuses, 200, 400, 405,
    500 or 502, whatever the request and the upstream; the body is empty
    exactly for the preflight method OPTIONS. *)
Theorem status_is_one_of_five upstream req w :
  exists code body,
    responses (handler upstream req) w = [(code, body)] /\
    In code [200; 400; 405; 500; 502] /\
    (body = NoBody <-> method req = "OPTIONS").
Proof.
  exists (row_status (table upstream req)), (row_body (table upstream req)).
  split; [apply responses_row|].
  destruct (table_cases upstream req)
    as [[Ho ->]|[(Ho & Hg & ->)|[(Hg & _ & ->)|(Hg & _ & Hrow)]]].
  - cbn. tauto.
  - cbn. split; [tauto|]. split; [discriminate | contradiction].
  - cbn. split; [tauto|]. split; [discriminate | rewrite Hg; discriminate].
  - assert (Hne : method req <> "OPTIONS") by (rewrite Hg; discriminate).
    destruct Hrow as [(e & _ & ->)|[(r & e & _ & _ & _ & ->)|
                      [(r & data & _ & _ & _ & ->)|(r & _ & _ & ->)]]];
      cbn; (split; [tauto|]); (split; [discriminate | contradiction]).
Qed.

(** X2. The handler writes to the error log only when it answers 502 or
    500, and then exactly one line: for 502 the upstream status and
    status text (nothing of the body), for 500 the value that was thrown,
    which is the reason [fetch] rejected with or the error
    [response.json()] rejected with. On every other path it logs
    nothing. *)
Theorem logs_only_on_failure upstream req w :
  exists code body,
    responses (handler upstream req) w = [(code, body)] /\
    ((code = 502 /\
      exists r, upstream (upstream_call req) = Fulfilled r /\
        logged (handler upstream req) w =
        [[LogString ("Kaito API error: " ++ pretty (status r)
                       ++ " " ++ statusText r)]]) \/
     (code = 500 /\
      exists e,
        (upstream (upstream_call req) = Rejected e \/
         exists r, upstream (upstream_call req) = Fulfilled r /\
                   json_result r = inl e) /\
        logged (handler upstream req) w =
        [[LogString "Proxy error:"; LogError e]]) \/
     (code <> 502 /\ code <> 500 /\ logged (handler upstream req) w = [])).
Proof.
  exists (row_status (table upstream req)), (row_body (table upstream req)).
  split; [apply responses_row|]. rewrite logged_row.
  destruct (table_cases upstream req)
    as [[_ ->]|[(_ & _ & ->)|[(_ & _ & ->)|(_ & _ & Hrow)]]].
  - right. right. cbn. repeat split; discriminate.
  - right. right. cbn. repeat split; discriminate.
  - right. right. cbn. repeat split; discriminate.
  - destruct Hrow as [(e & Hup & ->)|[(r & e & Hup & _ & Hj & ->)|
                      [(r & data & _ & _ & _ & ->)|(r & Hup & _ & ->)]]]; cbn.
    + right. left. split; [reflexivity|]. exists e. split; [left|]; auto.
    + right. left. split; [reflexivity|]. exists e. split; [right|]; eauto.
    + right. right. repeat split; discriminate.
    + left. eauto.
Qed.

(** X3. An invocation makes at most one outbound call, and makes it
    exactly when the method is GET and a parameter is supplied; the call
    is a GET with the two fixed headers, to a URL that starts with the
    endpoint and [?]. *)
Theorem outbound_call_discipline upstream req w :
  (length (calls (handler upstream req) w) <= 1)%nat /\
  (calls (handler upstream req) w <> [] <->
   method req = "GET" /\ some_supplied req) /\
  (forall c, In c (calls (handler upstream req) w) ->
     init_method c = "GET" /\
     init_headers c = [("Content-Type", "application/json");
                       ("User-Agent", "kaito-yaps-proxy/1.0.0")] /\
     exists q, url c = endpoint ++ "?" ++ q).
Proof.
  destruct (outbound_call_cases upstream req w) as [(Hg & Hs & ->)|[Hno ->]].
  - split; [cbn; lia|]. split; [split; [auto | discriminate]|].
    intros c [<-|[]]. cbn. repeat split. eexists. reflexivity.
  - split; [cbn; lia|]. split; [split; [congruence | contradiction]|].
    intros c [].
Qed.

Lemma percent_encode_safe s :
  all_bytes UrlEncoded.is_urlencoded_safe s = true ->
  UrlEncoded.percent_encode s = s.
Proof.
  induction s as [|c r IH]; [reflexivity|]. cbn [all_bytes].
  intros [Hc Hr]%andb_true_iff. cbn [UrlEncoded.percent_encode].
  rewrite Hc, (IH Hr).
  destruct (Ascii.eqb c " ") eqn:Hsp; [|reflexivity].
  apply Ascii.eqb_eq in Hsp. subst c. discriminate.
Qed.

Lemma query_byte_is_plain b :
  is_query_byte b = true ->
  (N_of_ascii b <? 128)%N = true /\ Ascii.eqb b " " = false
  /\ Ascii.eqb b "#" = false /\ Ascii.eqb b "?" = false.
Proof. each_byte b; cbv; intuition congruence. Qed.

(** X4. The URL of the outbound call is the endpoint, [?] and a query
    made only of ASCII letters, digits and the bytes [* - . _ + % & =]:
    whatever the inbound values hold, no space, [#], second [?] or byte
    above 127 gets into it. *)
Theorem outbound_url_is_clean upstream req w :
  Forall (fun c =>
            exists q,
              url c = endpoint ++ "?" ++ q /\
              all_bytes is_query_byte q = true /\
              all_bytes (fun b => (N_of_ascii b <? 128)%N) q = true /\
              occurs " " q = false /\ occurs "#" q = false /\
              occurs "?" q = false)
         (calls (handler upstream req) w).
Proof.
  destruct (outbound_call_cases upstream req w) as [(_ & _ & ->)|[_ ->]];
    constructor; [|constructor].
  exists (UrlEncoded.serialize (supplied req)).
  pose proof (ParseFacts.serialize_query (supplied req)) as Hq.
  split; [reflexivity|]. split; [exact Hq|]. split.
  - revert Hq. apply StringFacts.all_bytes_weaken.
    intros b Hb. apply query_byte_is_plain, Hb.
  - repeat split;
      apply (UrlEncodedFacts.all_bytes_occurs is_query_byte); auto.
Qed.

(** X6. A value made only of ASCII letters, digits and [* - . _] is
    forwarded as it is: a GET request that supplies only such a username
    calls exactly the endpoint with [?username=] and that value. *)
Theorem plain_username_forwarded_verbatim upstream req w name :
  method req = "GET" ->
  query req !! "username" = Some name -> name <> "" ->
  absent req "user_id" ->
  all_bytes UrlEncoded.is_urlencoded_safe name = true ->
  map url (calls (handler upstream req) w)
    = [endpoint ++ "?username=" ++ name].
Proof.
  intros Hg Hu Hne Hi Hsafe.
  assert (Hs : some_supplied req).
  { intros [[H|H] _]; congruence. }
  rewrite calls_forwarded by assumption. cbn [map url upstream_call].
  unfold supplied. cbn [omap list_omap].
  rewrite (proj2 (supplied_value_spec req "username" name) (conj Hu Hne)).
  apply absent_truthy in Hi.
  rewrite (supplied_value_truthy req "user_id"), Hi.
  cbn [fmap option_fmap option_map].
  rewrite ParseFacts.serialize_cons. cbn [more_tuples].
  unfold tuple_text. cbn [fst snd].
  rewrite (percent_encode_safe name Hsafe), StringFacts.append_nil_r.
  reflexivity.
Qed.

Lemma plain_username_forwarded_verbatim_witness :
  (method Samples.vitalik = "GET" /\
   query Samples.vitalik !! "username" = Some "VitalikButerin" /\
   "VitalikButerin" <> "" /\
   absent Samples.vitalik "user_id" /\
   all_bytes UrlEncoded.is_urlencoded_safe "VitalikButerin" = true) /\
  map url (calls (handler Samples.unreachable Samples.vitalik) fresh_world)
    = ["https://api.kaito.ai/api/v1/yaps?username=VitalikButerin"].
Proof.
  pose proof (eq_refl : method Samples.vitalik = "GET") as Hg.
  pose proof (eq_refl :
    query Samples.vitalik !! "username" = Some "VitalikButerin") as Hu.
  assert (Hne : "VitalikButerin" <> "") by discriminate.
  pose proof (or_introl eq_refl : absent Samples.vitalik "user_id") as Hi.
  pose proof (eq_refl :
    all_bytes UrlEncoded.is_urlencoded_safe "VitalikButerin" = true) as Hsafe.
  exact (conj (conj Hg (conj Hu (conj Hne (conj Hi Hsafe))))
           (plain_username_forwarded_verbatim Samples.unreachable
              Samples.vitalik fresh_world "VitalikButerin"
              Hg Hu Hne Hi Hsafe)).
Defined.

(** X8. What an answer costs upstream: a 400 or a 405 is sent without
    any outbound call, a 500 or a 502 after exactly one, and a 200 without
    a call only for the preflight method OPTIONS. *)
Theorem status_tells_upstream_cost upstream req w :
  exists code body,
    responses (handler upstream req) w = [(code, body)] /\
    (code = 400 \/ code = 405 -> calls (handler upstream req) w = []) /\
    (code = 500 \/ code = 502 ->
     calls (handler upstream req) w = [upstream_call req]) /\
    (code = 200 ->
     (calls (handler upstream req) w = [] <-> method req = "OPTIONS")).
Proof.
  exists (row_status (table upstream req)), (row_body (table upstream req)).
  split; [apply responses_row|]. rewrite calls_row.
  destruct (table_cases upstream req)
    as [[Ho ->]|[(Ho & Hg & ->)|[(Hg & _ & ->)|(Hg & _ & Hrow)]]].
  - cbn. repeat split; auto; intros [H|H]; discriminate.
  - cbn. repeat split; auto; try discriminate; intros [H|H]; discriminate.
  - cbn. repeat split; auto; try discriminate; intros [H|H]; discriminate.
  - assert (Hne : method req <> "OPTIONS") by (rewrite Hg; discriminate).
    destruct Hrow as [(e & _ & ->)|[(r & e & _ & _ & _ & ->)|
                      [(r & data & _ & _ & _ & ->)|(r & _ & _ & ->)]]]; cbn.
    all: repeat split; auto; try discriminate; try contradiction.
    all: intros [H|H]; discriminate.
Qed.

(** * The client of the proxy *)

Section ClientFacts.

Variable proxy : FetchRequest -> FetchOutcome.

Lemma or_default_idem p :
  Client.or_default (Some (Client.or_default p)) = Client.or_default p.
Proof. reflexivity. Qed.

(** One run of [getYapsData]: the call goes out, and either the data
    comes back or the thrown value is logged and [null] comes back. *)
Lemma getYapsData_run username proxyUrl w :
  Client.getYapsData proxy username proxyUrl w =
  let call := Client.get_request
                (Client.or_default proxyUrl ++ "?username=" ++ username) in
  match fetched proxy username proxyUrl with
  | inr data =>
      (Normal data,
       {| res := res w; console := console w;
          network := network w ++ [call] |})
  | inl e =>
      (Normal JNull,
       {| res := res w;
          console := console w ++
                     [[LogString "Error fetching yaps data:"; LogError e]];
          network := network w ++ [call] |})
  end.
Proof.
  unfold Client.getYapsData, fetched, try_catch_value, bind, when, fetch.
  cbn zeta.
  destruct (proxy _) as [r|e]; [|reflexivity].
  rewrite ok_decide.
  destruct (decide (200 <= status r <= 299)) as [Hok|Hok].
  - rewrite bool_decide_eq_true_2 by assumption. cbn.
    unfold response_json. destruct (json_result r); reflexivity.
  - rewrite bool_decide_eq_false_2 by assumption. reflexivity.
Qed.

Lemma getYapsData_outcome username proxyUrl w :
  outcome (Client.getYapsData proxy username proxyUrl) w =
  Normal match fetched proxy username proxyUrl with
         | inr data => data
         | inl _ => JNull
         end.
Proof.
  unfold outcome. rewrite getYapsData_run. cbn zeta.
  destruct (fetched proxy username proxyUrl); reflexivity.
Qed.

Lemma getYapsData_calls username proxyUrl w :
  calls_of (Client.getYapsData proxy username proxyUrl) w =
  [Client.get_request
     (Client.or_default proxyUrl ++ "?username=" ++ username)].
Proof.
  unfold calls_of, since. rewrite getYapsData_run. cbn zeta.
  destruct (fetched proxy username proxyUrl); cbn [snd network];
    apply drop_app_length.
Qed.

Lemma getYapsData_logged username proxyUrl w :
  logged_of (Client.getYapsData proxy username proxyUrl) w =
  match fetched proxy username proxyUrl with
  | inr _ => []
  | inl e => [[LogString "Error fetching yaps data:"; LogError e]]
  end.
Proof.
  unfold logged_of, since. rewrite getYapsData_run. cbn zeta.
  destruct (fetched proxy username proxyUrl); cbn [snd console].
  - apply drop_app_length.
  - apply drop_ge. reflexivity.
Qed.

(** The promises of a batch settle one after the other, all fulfilled. *)
Lemma allSettled_run usernames proxyUrl w :
  let data username :=
    match fetched proxy username proxyUrl with
    | inr d => d
    | inl _ => JNull
    end in
  let promises :=
    map (fun username =>
           Client.getYapsData proxy username
             (Some (Client.or_default proxyUrl))) usernames in
  exists w',
    Client.allSettled promises w
      = (Normal (map (fun username => SettledFulfilled (data username))
                     usernames), w')
    /\ network w'
      = (network w ++
         map (fun username =>
                Client.get_request
                  (Client.or_default proxyUrl ++ "?username=" ++ username))
             usernames)%list.
Proof.
  cbn zeta. revert w. induction usernames as [|u us IH]; intros w.
  - exists w. cbn. rewrite app_nil_r. split; reflexivity.
  - cbn [map Client.allSettled]. unfold bind at 1, Client.settle at 1.
    rewrite getYapsData_run. cbn zeta.
    change (fetched proxy u (Some (Client.or_default proxyUrl)))
      with (fetched proxy u proxyUrl).
    destruct (fetched proxy u proxyUrl) as [e|d].
    all: unfold bind at 1.
    all: match goal with
         | |- context [Client.allSettled _ ?w1] =>
             destruct (IH w1) as (w2 & -> & Hnet)
         end.
    all: exists w2; unfold ret; rewrite Hnet; cbn [network];
      rewrite <- app_assoc; split; reflexivity.
Qed.

End ClientFacts.

Lemma after_first sep base rest :
  occurs sep base = false -> after sep (base ++ String sep rest) = rest.
Proof.
  induction base as [|c r IH].
  - intros _. rewrite StringFacts.append_nil_l. cbn [after].
    rewrite Ascii.eqb_refl. reflexivity.
  - cbn [occurs]. intros [Hc Hr]%orb_false_iff.
    rewrite StringFacts.append_cons. cbn [after]. rewrite Hc. apply IH, Hr.
Qed.

(** The query of [base?q], for a base without [?] and [#]. *)
Lemma url_query_after base q :
  occurs "?" base = false -> occurs "#" base = false ->
  occurs "#" q = false ->
  url_query (base ++ "?" ++ q) = q.
Proof.
  intros Hq Hh Hhq. unfold url_query. rewrite StringFacts.before_absent.
  - apply after_first, Hq.
  - rewrite !StringFacts.occurs_append, Hh, Hhq. reflexivity.
Qed.

(** X9. [getYapsData] never throws: whatever the proxy does, it
    completes with a value, after exactly one GET, without headers, to
    the proxy URL (the default one when none is given) followed by
    [?username=] and the username as it stands. *)
Theorem getYapsData_never_throws proxy username proxyUrl w :
  (exists value,
     outcome (Client.getYapsData proxy username proxyUrl) w = Normal value) /\
  calls_of (Client.getYapsData proxy username proxyUrl) w
    = [{| url := match proxyUrl with
                 | Some u => u
                 | None =>
                     "https://your-deployment.vercel.app/api/kaito-yaps-proxy"
                 end ++ "?username=" ++ username;
          init_method := "GET";
          init_headers := [] |}].
Proof.
  split.
  - eexists. apply getYapsData_outcome.
  - rewrite getYapsData_calls. destruct proxyUrl; reflexivity.
Qed.

(** X10. When [getYapsData] returns anything but [null], the proxy
    answered with a 2xx status and a JSON body, the value returned is
    that body, and nothing was logged. *)
Theorem getYapsData_data_means_success proxy username proxyUrl w value :
  outcome (Client.getYapsData proxy username proxyUrl) w = Normal value ->
  value <> JNull ->
  exists r,
    proxy (Client.get_request
             (Client.or_default proxyUrl ++ "?username=" ++ username))
      = Fulfilled r /\
    200 <= status r <= 299 /\
    json_result r = inr value /\
    logged_of (Client.getYapsData proxy username proxyUrl) w = [].
Proof.
  rewrite getYapsData_outcome, getYapsData_logged. unfold fetched.
  destruct (proxy _) as [r|e].
  - destruct (decide (200 <= status r <= 299)) as [Hok|Hok].
    + destruct (json_result r) as [e|data] eqn:Hj.
      * intros [= <-] Hne. contradiction.
      * intros [= <-] _. exists r. auto.
    + intros [= <-] Hne. contradiction.
  - intros [= <-] Hne. contradiction.
Qed.

Lemma getYapsData_data_means_success_witness :
  (outcome (Client.getYapsData ClientSamples.one_user "VitalikButerin" None)
     fresh_world = Normal Samples.vitalik_json /\
   Samples.vitalik_json <> JNull) /\
  exists r,
    ClientSamples.one_user
      (Client.get_request
         (Client.or_default None ++ "?username=" ++ "VitalikButerin"))
      = Fulfilled r /\
    200 <= status r <= 299 /\
    json_result r = inr Samples.vitalik_json /\
    logged_of (Client.getYapsData ClientSamples.one_user "VitalikButerin" None)
      fresh_world = [].
Proof.
  pose proof (eq_refl :
    outcome (Client.getYapsData ClientSamples.one_user "VitalikButerin" None)
      fresh_world = Normal Samples.vitalik_json) as Hout.
  assert (Hne : Samples.vitalik_json <> JNull) by discriminate.
  exact (conj (conj Hout Hne)
           (getYapsData_data_means_success ClientSamples.one_user
              "VitalikButerin" None fresh_world Samples.vitalik_json
              Hout Hne)).
Defined.

(** X11. Every failure of [getYapsData] ends the same way: when the
    transport fails, when the status is not 2xx, or when the body of a 2xx
    answer is not JSON, it returns [null] and logs one line with the
    thrown value, which for a status outside 2xx is [Error("HTTP status")]. *)
Theorem getYapsData_failures_return_null proxy username proxyUrl w :
  let call :=
    Client.get_request
      (Client.or_default proxyUrl ++ "?username=" ++ username) in
  let run := Client.getYapsData proxy username proxyUrl in
  let failed e :=
    outcome run w = Normal JNull /\
    logged_of run w = [[LogString "Error fetching yaps data:"; LogError e]] in
  (forall e, proxy call = Rejected e -> failed e) /\
  (forall r, proxy call = Fulfilled r -> ~ (200 <= status r <= 299) ->
     failed (new_Error ("HTTP " ++ pretty (status r)))) /\
  (forall r e, proxy call = Fulfilled r -> 200 <= status r <= 299 ->
     json_result r = inl e -> failed e).
Proof.
  cbn zeta. rewrite getYapsData_outcome, getYapsData_logged. unfold fetched.
  split; [|split].
  - intros e ->. split; reflexivity.
  - intros r -> Hko. rewrite decide_False by assumption. split; reflexivity.
  - intros r e -> Hok Hj. rewrite decide_True by assumption. rewrite Hj.
    split; reflexivity.
Qed.

Lemma length_before_le sep s : (String.length (before sep s) <= String.length s)%nat.
Proof.
  induction s as [|c r IH]; [reflexivity|]. cbn [before].
  destruct (Ascii.eqb c sep); cbn [String.length]; lia.
Qed.

Lemma length_before_lt sep s :
  occurs sep s = true -> (String.length (before sep s) < String.length s)%nat.
Proof.
  induction s as [|c r IH]; [discriminate|]. cbn [occurs before].
  destruct (Ascii.eqb c sep); cbn [orb String.length]; [lia|].
  intros H. specialize (IH H). lia.
Qed.

Lemma length_plus_to_space s :
  String.length (UrlEncoded.plus_to_space s) = String.length s.
Proof.
  induction s as [|c r IH]; [reflexivity|].
  cbn [UrlEncoded.plus_to_space String.length]. rewrite IH. reflexivity.
Qed.

Lemma length_percent_decode_le s :
  (String.length (UrlEncoded.percent_decode s) <= String.length s)%nat.
Proof.
  assert (H : forall n s, (String.length s <= n)%nat ->
            (String.length (UrlEncoded.percent_decode s) <= String.length s)%nat).
  { clear s. induction n as [|n IH]; intros s Hn.
    - destruct s; [reflexivity | cbn in Hn; lia].
    - destruct s as [|c r]; [reflexivity|]. cbn [String.length] in Hn.
      cbn [UrlEncoded.percent_decode].
      assert (Hr : (String.length (UrlEncoded.percent_decode r)
                    <= String.length r)%nat) by (apply IH; lia).
      destruct (Ascii.eqb c "%"); [|cbn [String.length]; lia].
      destruct r as [|h [|l r']]; try (cbn [String.length] in *; lia).
      destruct (UrlEncoded.hex_value h), (UrlEncoded.hex_value l);
        try (cbn [String.length] in *; lia).
      assert (Hr' : (String.length (UrlEncoded.percent_decode r')
                     <= String.length r')%nat)
        by (apply IH; cbn [String.length] in Hn; lia).
      cbn [String.length]. lia. }
  apply (H (String.length s)). lia.
Qed.

Lemma split_on_head sep s :
  exists rest, UrlEncoded.split_on sep s = before sep s :: rest.
Proof.
  induction s as [|c r [rest IH]]; [eexists; reflexivity|].
  cbn [UrlEncoded.split_on before].
  destruct (Ascii.eqb c sep); [eexists; reflexivity|].
  rewrite IH. eexists. reflexivity.
Qed.

Lemma before_append_absent sep a b :
  occurs sep a = false -> before sep (a ++ b) = a ++ before sep b.
Proof.
  induction a as [|c r IH]; [reflexivity|]. cbn [occurs].
  intros [Hc Hr]%orb_false_iff.
  rewrite !StringFacts.append_cons. cbn [before]. rewrite Hc, (IH Hr).
  reflexivity.
Qed.

(** What the query of [base?username=name] reads back as, first
    parameter first, when nothing is encoded. *)
Lemma raw_username_read_back base name :
  occurs "?" base = false -> occurs "#" base = false ->
  exists more,
    UrlEncoded.parse (url_query (base ++ "?username=" ++ name))
    = ("username",
       UrlEncoded.decode_component (before "&" (before "#" name))) :: more.
Proof.
  intros Hq Hh. unfold url_query.
  change (base ++ "?username=" ++ name)
    with (base ++ String "?" ("username=" ++ name)).
  rewrite before_append_absent by assumption.
  change (before "#" (String "?" ("username=" ++ name)))
    with (String "?" ("username=" ++ before "#" name)).
  rewrite after_first by assumption. unfold UrlEncoded.parse.
  destruct (split_on_head "&" ("username=" ++ before "#" name))
    as [rest ->].
  change (before "&" ("username=" ++ before "#" name))
    with ("username=" ++ before "&" (before "#" name)).
  cbn [flat_map]. eexists. reflexivity.
Qed.

(** X12. [getYapsData] does not encode the username.  With a proxy URL
    free of [?] and [#], the query it sends reads back as the single
    parameter username with the value given when the username is made
    only of ASCII letters, digits and [* - . _], and reads back as
    something else whenever the username holds a [&] or a [#]. *)
Theorem getYapsData_does_not_encode proxy username proxyUrl w :
  occurs "?" (Client.or_default proxyUrl) = false ->
  occurs "#" (Client.or_default proxyUrl) = false ->
  (all_bytes UrlEncoded.is_urlencoded_safe username = true ->
   map (fun c => UrlEncoded.parse (url_query (url c)))
       (calls_of (Client.getYapsData proxy username proxyUrl) w)
     = [[("username", username)]]) /\
  (occurs "&" username = true \/ occurs "#" username = true ->
   map (fun c => UrlEncoded.parse (url_query (url c)))
       (calls_of (Client.getYapsData proxy username proxyUrl) w)
     <> [[("username", username)]]).
Proof.
  intros Hq Hh. rewrite getYapsData_calls.
  cbn [map url Client.get_request]. split.
  - intros Hsafe.
    assert (Htext : "username=" ++ username
                    = UrlEncoded.serialize [("username", username)]).
    { rewrite ParseFacts.serialize_cons. cbn [more_tuples].
      unfold tuple_text. cbn [fst snd].
      rewrite (percent_encode_safe username Hsafe), StringFacts.append_nil_r.
      reflexivity. }
    change (Client.or_default proxyUrl ++ "?username=" ++ username)
      with (Client.or_default proxyUrl ++ "?" ++ "username=" ++ username).
    rewrite Htext, url_query_after; try assumption.
    + rewrite ParseFacts.parse_serialize. reflexivity.
    + apply (UrlEncodedFacts.all_bytes_occurs is_query_byte);
        [reflexivity | apply ParseFacts.serialize_query].
  - intros Hspecial Hread.
    destruct (raw_username_read_back (Client.or_default proxyUrl) username
                Hq Hh) as [more Hparse].
    rewrite Hparse in Hread. injection Hread as Hvalue _.
    apply (f_equal String.length) in Hvalue.
    pose proof (length_percent_decode_le
                  (UrlEncoded.plus_to_space
                     (before "&" (before "#" username)))) as Hdec.
    rewrite length_plus_to_space in Hdec.
    unfold UrlEncoded.decode_component in Hvalue.
    pose proof (length_before_le "&" (before "#" username)) as Hamp.
    pose proof (length_before_le "#" username) as Hhash.
    destruct Hspecial as [Hspecial|Hspecial].
    + destruct (occurs "#" username) eqn:Hocc.
      * pose proof (length_before_lt "#" username Hocc). lia.
      * rewrite (StringFacts.before_absent "#" username Hocc) in *.
        pose proof (length_before_lt "&" username Hspecial). lia.
    + pose proof (length_before_lt "#" username Hspecial). lia.
Qed.

Lemma getYapsData_does_not_encode_witness :
  (occurs "?" (Client.or_default None) = false /\
   occurs "#" (Client.or_default None) = false) /\
  map (fun c => UrlEncoded.parse (url_query (url c)))
      (calls_of (Client.getYapsData Samples.healthy "VitalikButerin" None)
         fresh_world)
    = [[("username", "VitalikButerin")]] /\
  map (fun c => UrlEncoded.parse (url_query (url c)))
      (calls_of (Client.getYapsData Samples.healthy "x&user_id=1#top" None)
         fresh_world)
    <> [[("username", "x&user_id=1#top")]] /\
  map (fun c => UrlEncoded.parse (url_query (url c)))
      (calls_of (Client.getYapsData Samples.healthy "x&user_id=1#top" None)
         fresh_world)
    = [[("username", "x"); ("user_id", "1")]].
Proof.
  pose proof (eq_refl : occurs "?" (Client.or_default None) = false) as Hq.
  pose proof (eq_refl : occurs "#" (Client.or_default None) = false) as Hh.
  exact (conj (conj Hq Hh)
           (conj
              (proj1 (getYapsData_does_not_encode Samples.healthy
                        "VitalikButerin" None fresh_world Hq Hh) eq_refl)
              (conj
                 (proj2 (getYapsData_does_not_encode Samples.healthy
                           "x&user_id=1#top" None fresh_world Hq Hh)
                    (or_introl eq_refl))
                 eq_refl))).
Defined.

(** A username with [&] or [#] in it does not survive: it reads back as
    other parameters than the one meant. *)
Example getYapsData_unencoded_username :
  map (fun c => UrlEncoded.parse (url_query (url c)))
      (calls_of (Client.getYapsData Samples.healthy "x&user_id=1#top" None)
         fresh_world)
    = [[("username", "x"); ("user_id", "1")]].
Proof. reflexivity. Qed.

(** X13. [getBatchYapsData] never throws and returns one entry per
    username, in the order given: each entry carries its username, the
    data a single [getYapsData] call with the same arguments returns
    ([null] after a failure), and never an error, because [getYapsData]
    never rejects. *)
Theorem getBatchYapsData_entries proxy usernames proxyUrl w :
  exists entries,
    outcome (Client.getBatchYapsData proxy usernames proxyUrl) w
      = Normal entries /\
    Forall2 (fun username entry =>
               entry_username entry = Some username /\
               entry_error entry = None /\
               forall w0,
                 outcome (Client.getYapsData proxy username proxyUrl) w0
                   = Normal (entry_data entry))
            usernames entries.
Proof.
  unfold outcome, Client.getBatchYapsData, bind.
  destruct (allSettled_run proxy usernames proxyUrl w) as (w' & Hrun & _).
  cbn zeta in Hrun. rewrite Hrun. unfold ret. cbn [fst].
  eexists. split; [reflexivity|].
  apply Forall2_lookup. intros i.
  rewrite list_lookup_imap, list_lookup_fmap.
  destruct (usernames !! i) as [u|] eqn:Hu; cbn; constructor.
  cbn. repeat split. intros w0.
  apply (getYapsData_outcome proxy u proxyUrl w0).
Qed.

(** X14. A batch makes one call per username, in the order of the list,
    each the call [getYapsData] makes for that username; an empty list
    makes no call. *)
Theorem getBatchYapsData_calls proxy usernames proxyUrl w :
  calls_of (Client.getBatchYapsData proxy usernames proxyUrl) w
    = map (fun username =>
             Client.get_request
               (Client.or_default proxyUrl ++ "?username=" ++ username))
          usernames.
Proof.
  unfold calls_of, since, Client.getBatchYapsData, bind.
  destruct (allSettled_run proxy usernames proxyUrl w) as (w' & Hrun & Hnet).
  cbn zeta in Hrun. rewrite Hrun. unfold ret. cbn [snd].
  rewrite Hnet. apply drop_app_length.
Qed.

(** * The reputation score *)

Module NumberFacts.
Import Number.

(** [0 <= f]: a zero of either sign, a positive number or +Infinity. *)
Lemma zero_le_cases f :
  SFleb zero f = true <->
  match f with
  | S754_zero _ => True
  | S754_finite s _ _ | S754_infinity s => s = false
  | S754_nan => False
  end.
Proof.
  destruct f as [s|s| |s m e]; cbn; try destruct s; cbn;
    split; intros; try easy.
Qed.

Lemma ltb_leb f g : SFltb f g = true -> SFleb f g = true.
Proof.
  unfold SFltb, SFleb. destruct (SFcompare f g) as [[]|]; easy.
Qed.

(** [Math.min(100, x)] is NaN for a NaN, [x] when [x < 100], else 100. *)
Lemma math_min_hundred x :
  math_min [of_Z 100; x] =
  if is_nan x then S754_nan
  else if SFltb x (of_Z 100) then x else of_Z 100.
Proof.
  unfold math_min. change (of_Z 100) with (S754_finite false 7036874417766400 (-46)).
  cbn [min_from is_nan is_negative_zero is_positive_zero andb infinity].
  change (SFltb (S754_finite false 7036874417766400 (-46)) (S754_infinity false))
    with true. cbn iota.
  destruct x as [[]|[]| |[] m e]; try reflexivity.
  all: cbn [is_nan is_negative_zero is_positive_zero andb].
  all: destruct (SFltb _ _); reflexivity.
Qed.

Section Rounding.

Variables prec emax : Z.

Lemma shr_1_nonneg mrs : 0 <= shr_m mrs -> 0 <= shr_m (shr_1 mrs).
Proof.
  destruct mrs as [m r s]. cbn [shr_m]. intros Hm.
  destruct m as [|[p|p|]|p]; cbn; lia.
Qed.

Lemma iter_shr_1_nonneg p mrs :
  0 <= shr_m mrs -> 0 <= shr_m (SpecFloat.iter_pos shr_1 p mrs).
Proof.
  revert mrs. induction p as [p IH|p IH|]; intros mrs Hm; cbn [SpecFloat.iter_pos].
  - apply IH, IH, shr_1_nonneg, Hm.
  - apply IH, IH, Hm.
  - apply shr_1_nonneg, Hm.
Qed.

Lemma shr_fexp_nonneg m e l :
  0 <= m -> 0 <= shr_m (fst (shr_fexp prec emax m e l)).
Proof.
  intros Hm. unfold shr_fexp, shr.
  assert (Hrec : 0 <= shr_m (shr_record_of_loc m l)).
  { destruct l as [|[]]; exact Hm. }
  destruct (_ - e) as [|p|p]; cbn [fst]; try exact Hrec.
  apply iter_shr_1_nonneg, Hrec.
Qed.

Lemma round_nearest_even_nonneg m l : 0 <= m -> 0 <= round_nearest_even m l.
Proof.
  intros Hm. unfold round_nearest_even.
  destruct l as [|[]]; try destruct (Z.even m); lia.
Qed.

(** Rounding a non-negative mantissa under a clear sign bit gives +0, a
    positive number or +Infinity. *)
Lemma binary_round_aux_nonneg m e l :
  0 <= m -> SFleb zero (binary_round_aux prec emax false m e l) = true.
Proof.
  intros Hm. unfold binary_round_aux.
  pose proof (shr_fexp_nonneg m e l Hm) as H1.
  destruct (shr_fexp prec emax m e l) as [mrs' e']. cbn [fst] in H1.
  pose proof (shr_fexp_nonneg _ e' loc_Exact
                (round_nearest_even_nonneg _ (loc_of_shr_record mrs') H1)) as H2.
  destruct (shr_fexp prec emax _ e' loc_Exact) as [mrs'' e'']. cbn [fst] in H2.
  destruct (shr_m mrs'') as [|p|p]; [reflexivity| |lia].
  destruct (e'' <=? emax - prec); reflexivity.
Qed.

Lemma binary_round_nonneg m e :
  SFleb zero (binary_round prec emax false m e) = true.
Proof.
  unfold binary_round. destruct (shl_align _ _ _) as [mz ez].
  apply binary_round_aux_nonneg. lia.
Qed.

Lemma mul_nonneg f g :
  SFleb zero f = true -> g = tenth \/ g = half ->
  SFleb zero (SFmul prec emax f g) = true.
Proof.
  intros Hf Hg. apply zero_le_cases in Hf.
  assert (exists m e, g = S754_finite false m e) as (m & e & ->).
  { destruct Hg as [->| ->]; eexists; eexists; reflexivity. }
  destruct f as [s|s| |s mf ef]; cbn [SFmul]; try contradiction.
  - apply zero_le_cases. exact I.
  - subst s. reflexivity.
  - subst s. cbn [xorb]. apply binary_round_aux_nonneg. lia.
Qed.

Lemma add_nonneg f g :
  SFleb zero f = true -> SFleb zero g = true ->
  SFleb zero (SFadd prec emax f g) = true.
Proof.
  intros Hf Hg. pose proof Hf as Hf'. pose proof Hg as Hg'.
  apply zero_le_cases in Hf', Hg'.
  destruct f as [sf|sf| |sf mf ef]; try contradiction;
    destruct g as [sg|sg| |sg mg eg]; try contradiction;
    cbn [SFadd]; try subst sf; try subst sg; try assumption.
  - destruct sf, sg; reflexivity.
  - cbn [cond_Zopp]. cbn [Z.add binary_normalize].
    apply binary_round_nonneg.
Qed.

End Rounding.

End NumberFacts.

Section ScoreFacts.

Variable to_number : JsonValue -> spec_float.

(** The score is [Math.min(100, sum)] of a sum, or [0]. *)
Lemma score_cases yapsData :
  calculateReputationScore to_number yapsData = Number.zero \/
  exists sum,
    calculateReputationScore to_number yapsData
      = Number.math_min [Number.of_Z 100; sum].
Proof.
  unfold calculateReputationScore.
  destruct (negb (js_truthy to_number yapsData)); [left | right; eexists];
    reflexivity.
Qed.

(** X15. The reputation score never exceeds 100: for every value passed
    in, and however its members convert to numbers, the score is NaN or a
    number that is at most 100. *)
Theorem score_is_capped yapsData :
  Number.is_nan (calculateReputationScore to_number yapsData) = true \/
  SFleb (calculateReputationScore to_number yapsData) (Number.of_Z 100) = true.
Proof.
  destruct (score_cases yapsData) as [-> | [sum ->]]; [right; reflexivity|].
  rewrite NumberFacts.math_min_hundred.
  destruct (Number.is_nan sum); [left; reflexivity|]. right.
  destruct (SFltb sum (Number.of_Z 100)) eqn:Hlt.
  - apply NumberFacts.ltb_leb, Hlt.
  - reflexivity.
Qed.

(** X16. Without data there is no score: a falsy argument ([null],
    [false], [0], ['']), and equally a value that has neither a
    [yaps_all] nor a [yaps_l7d] member, scores exactly [0]. *)
Theorem score_is_zero_without_data yapsData :
  js_truthy to_number yapsData = false \/
  (get_member yapsData "yaps_all" = None /\
   get_member yapsData "yaps_l7d" = None) ->
  calculateReputationScore to_number yapsData = Number.zero.
Proof.
  unfold calculateReputationScore, member_or_zero.
  intros [-> | [-> ->]]; [reflexivity|].
  destruct (negb (js_truthy to_number yapsData)); reflexivity.
Qed.

(** X17. When the two members read as numbers that are not negative
    (zero, positive or +Infinity; a missing member counts as [0]), the
    score is a number between 0 and 100, never NaN. *)
Theorem score_in_range yapsData :
  SFleb Number.zero (member_or_zero to_number yapsData "yaps_all") = true ->
  SFleb Number.zero (member_or_zero to_number yapsData "yaps_l7d") = true ->
  SFleb Number.zero (calculateReputationScore to_number yapsData) = true /\
  SFleb (calculateReputationScore to_number yapsData) (Number.of_Z 100) = true.
Proof.
  intros Hall Hl7d. unfold calculateReputationScore.
  destruct (negb (js_truthy to_number yapsData)); [split; reflexivity|].
  cbn zeta. rewrite NumberFacts.math_min_hundred.
  match goal with
  | |- context [Number.is_nan ?sum] =>
      assert (Hsum : SFleb Number.zero sum = true); [|generalize dependent sum]
  end.
  { apply NumberFacts.add_nonneg.
    - apply NumberFacts.add_nonneg;
        apply NumberFacts.mul_nonneg; auto.
    - destruct (SFltb Number.zero _); reflexivity. }
  intros sum Hsum.
  assert (Hnan : Number.is_nan sum = false).
  { apply NumberFacts.zero_le_cases in Hsum. destruct sum; easy. }
  rewrite Hnan. destruct (SFltb sum (Number.of_Z 100)) eqn:Hlt.
  - split; [exact Hsum | apply NumberFacts.ltb_leb, Hlt].
  - split; reflexivity.
Qed.

End ScoreFacts.

Lemma score_is_zero_without_data_witness :
  (js_truthy ScoreSamples.to_number ScoreSamples.bare = false \/
   (get_member ScoreSamples.bare "yaps_all" = None /\
    get_member ScoreSamples.bare "yaps_l7d" = None)) /\
  calculateReputationScore ScoreSamples.to_number ScoreSamples.bare
    = Number.zero.
Proof.
  pose proof (or_intror (conj eq_refl eq_refl) :
    js_truthy ScoreSamples.to_number ScoreSamples.bare = false \/
    (get_member ScoreSamples.bare "yaps_all" = None /\
     get_member ScoreSamples.bare "yaps_l7d" = None)) as H.
  exact (conj H (score_is_zero_without_data ScoreSamples.to_number
                   ScoreSamples.bare H)).
Defined.

Lemma score_in_range_witness :
  (SFleb Number.zero
     (member_or_zero ScoreSamples.to_number ScoreSamples.busy "yaps_all")
     = true /\
   SFleb Number.zero
     (member_or_zero ScoreSamples.to_number ScoreSamples.busy "yaps_l7d")
     = true) /\
  SFleb Number.zero
    (calculateReputationScore ScoreSamples.to_number ScoreSamples.busy) = true /\
  SFleb (calculateReputationScore ScoreSamples.to_number ScoreSamples.busy)
    (Number.of_Z 100) = true.
Proof.
  exact (conj (conj eq_refl eq_refl)
           (score_in_range ScoreSamples.to_number ScoreSamples.busy
              eq_refl eq_refl)).
Defined.

(** The score on the samples: capped at 100, 12 for 120 quiet yaps. *)
Example score_samples :
  calculateReputationScore ScoreSamples.to_number ScoreSamples.busy
    = Number.of_Z 100 /\
  calculateReputationScore ScoreSamples.to_number ScoreSamples.quiet
    = Number.of_Z 12 /\
  Number.div (Number.of_Z 1) (Number.of_Z 10) = Number.tenth /\
  Number.div (Number.of_Z 1) (Number.of_Z 2) = Number.half.
Proof. repeat split; vm_compute; reflexivity. Qed.
